(** * convert_calendar: FGU calendar log entries to Simple Calendar notes

    A shallow embedding of [fgu_foundy_converter/scripts/convert_calendar.py]
    and the properties of its record transformation ([textify],
    [get_id], [get_fvtt_entries]) and of its main program.

    Conventions.  A Python [str] is a [string]; each character stands for
    the code point of the same number, so the model covers the code points
    below 256.  A file holds bytes, a [string] as well, each character
    standing for the byte of the same number.  A value that may be [None]
    is an [option].  Python exceptions are values of [exn]; a computation
    that may raise returns a [result].  The library functions the script
    imports (the ElementTree serializer, [str.strip], [int], [str.format])
    are written out after the behaviour of CPython 3.8, the interpreter the
    script names; the XML and JSON decoders, and the text codec of the
    locale, through which the settings file is read and written, are
    parameters of the main program. *)

From Stdlib Require Import ZArith NArith Ascii String List Bool Lia.
From stdpp Require Import base option list strings pretty gmap.

Set Warnings "-register-all".
Local Open Scope string_scope.

(** ** Python builtins *)

Module Py.

(** The argument of [exit]: nothing, a message to print on standard error,
    or a status. *)
Inductive exit_arg : Type :=
| ExitNone
| ExitMessage (msg : string)
| ExitCode (status : Z).

(** Exceptions the script can end with. *)
Inductive exn : Type :=
| AttributeError
| TypeError
| ValueError
| IndexError
| KeyError
| ParseError
| UnicodeDecodeError
| SystemExit (arg : exit_arg).

(** The exit status of the process that ends with the exception [e]: an
    uncaught exception other than [SystemExit] gives status 1, and so does
    [SystemExit] with a message. *)
Definition exit_status (e : exn) : Z :=
  match e with
  | SystemExit ExitNone => 0
  | SystemExit (ExitCode n) => n
  | _ => 1
  end.

(** Truth value of an optional string: [None] and the empty string are
    false, every other string is true. *)
Definition truthy (o : option string) : bool :=
  match o with
  | None => false
  | Some s => negb (String.eqb s "")
  end.

(** [str.isspace] on one character: the characters [str.strip] removes. *)
Definition is_space (c : ascii) : bool :=
  let n := N_of_ascii c in
  ((9 <=? n) && (n <=? 13) || (28 <=? n) && (n <=? 32)
   || (n =? 133) || (n =? 160))%N.

(** Removal of the leading, and of the trailing, characters that satisfy
    [p]. *)
Fixpoint lstrip_by (p : ascii -> bool) (s : string) : string :=
  match s with
  | "" => ""
  | String c s' => if p c then lstrip_by p s' else s
  end.

Fixpoint rstrip_by (p : ascii -> bool) (s : string) : string :=
  match s with
  | "" => ""
  | String c s' =>
      match rstrip_by p s' with
      | "" => if p c then "" else String c ""
      | r => String c r
      end
  end.

Definition lstrip : string -> string := lstrip_by is_space.
Definition rstrip : string -> string := rstrip_by is_space.

(** [s.strip()] *)
Definition strip (s : string) : string := rstrip (lstrip s).

(** [old.replace(c, by)] for a one-character pattern. *)
Fixpoint replace (c : ascii) (by_ : string) (s : string) : string :=
  match s with
  | "" => ""
  | String a s' =>
      (if Ascii.eqb a c then by_ else String a "") ++ replace c by_ s'
  end.

(** [bytes.decode()] of pure ASCII bytes: the same characters. *)
Definition decode (b : string) : string := b.

(** ["".join(parts)] *)
Definition join (parts : list string) : string :=
  fold_right String.append "" parts.

(** The outcome of a computation that may raise. *)
Inductive result (A : Type) : Type :=
| Return (a : A)
| Raise (e : exn).
Arguments Return {A} a.
Arguments Raise {A} e.

Definition bind {A B : Type} (m : result A) (f : A -> result B) : result B :=
  match m with
  | Return a => f a
  | Raise e => Raise e
  end.

(** *** [int(text)] in base ten *)

(** The white space [int] accepts around a literal. *)
Definition is_int_space (c : ascii) : bool :=
  let n := N_of_ascii c in
  ((9 <=? n) && (n <=? 13) || (n =? 32) || (n =? 133) || (n =? 160))%N.

Definition is_digit (c : ascii) : bool :=
  let n := N_of_ascii c in ((48 <=? n) && (n <=? 57))%N.

Definition digit_value (c : ascii) : Z := Z.of_N (N_of_ascii c) - 48.

(** Decimal digits, single underscores allowed between two digits;
    [after_digit] tells whether the previous character was a digit. *)
Fixpoint int_digits (acc : Z) (after_digit : bool) (s : string) : option Z :=
  match s with
  | "" => if after_digit then Some acc else None
  | String c s' =>
      if is_digit c then int_digits (10 * acc + digit_value c) true s'
      else if Ascii.eqb c "_" && after_digit then int_digits acc false s'
      else None
  end.

(** An optional sign, then the digits. *)
Definition int_literal (s : string) : option Z :=
  match s with
  | String "+" s' => int_digits 0 false s'
  | String "-" s' => Z.opp <$> int_digits 0 false s'
  | _ => int_digits 0 false s
  end.

(** [int(x)] for [x] a string or [None], with no bound on the number of
    digits. *)
Definition int (x : option string) : result Z :=
  match x with
  | None => Raise TypeError
  | Some s =>
      match int_literal (rstrip_by is_int_space (lstrip_by is_int_space s)) with
      | Some z => Return z
      | None => Raise ValueError
      end
  end.

(** *** ["{0:08x}".format(n)] *)

Definition hex_char (d : N) : ascii :=
  if (d <? 10)%N then ascii_of_N (48 + d) else ascii_of_N (87 + d).

(** The hexadecimal digits of [n], most significant first, put before
    [acc]; one unit of fuel per digit. *)
Fixpoint hex_go (fuel : nat) (n : N) (acc : string) : string :=
  match fuel with
  | O => acc
  | S fuel' =>
      if (n =? 0)%N then acc
      else hex_go fuel' (n / 16)%N (String (hex_char (n mod 16)%N) acc)
  end.

(** [format(n, "x")] *)
Definition hex (n : N) : string :=
  if (n =? 0)%N then "0" else hex_go (N.to_nat (N.size n)) n "".

Fixpoint zeros (k : nat) : string :=
  match k with
  | O => ""
  | S k' => String "0" (zeros k')
  end.

(** Zero fill on the left up to [width] characters. *)
Definition zfill (width : nat) (s : string) : string :=
  zeros (width - String.length s) ++ s.

Definition format_08x (n : N) : string := zfill 8 (hex n).

(** *** [random.randrange] *)

(** The state of the process-wide generator: the raw values it will
    deliver, and how many were used. *)
Record rng : Type := mkRng { entropy : nat -> N; used : nat }.

(** [randrange(start, stop)]: one raw value is used and brought into the
    range. *)
Definition randrange (start stop : N) (g : rng) : N * rng :=
  ((start + entropy g (used g) mod (stop - start))%N,
   mkRng (entropy g) (S (used g))).

End Py.

(** ** xml.etree.ElementTree *)

Module ElementTree.

(** An element: tag, attributes in document order, the text before the
    first child, the text after the closing tag, and the children. *)
Inductive Element : Type :=
  mkElement {
    tag : string;
    attrib : list (string * string);
    text : option string;
    tail : option string;
    children : list Element
  }.

Definition dquote : string := String "034"%char "".

(** [_escape_cdata] *)
Definition _escape_cdata (text : string) : string :=
  Py.replace ">" "&gt;" (Py.replace "<" "&lt;" (Py.replace "&" "&amp;" text)).

(** [text.replace(CR LF, LF)] *)
Fixpoint replace_crlf (s : string) : string :=
  match s with
  | "" => ""
  | String c s' =>
      match s' with
      | String d s'' =>
          if Ascii.eqb c "013" && Ascii.eqb d "010"
          then String "010" (replace_crlf s'')
          else String c (replace_crlf s')
      | "" => String c ""
      end
  end.

(** [_escape_attrib] *)
Definition _escape_attrib (text : string) : string :=
  Py.replace "009" "&#09;"
    (Py.replace "010" "&#10;"
       (Py.replace "013" (String "010" "")
          (replace_crlf
             (Py.replace "034" "&quot;" (_escape_cdata text))))).

(** One attribute: a space, the name, and the quoted escaped value. *)
Definition write_item (kv : string * string) : string :=
  " " ++ fst kv ++ "=" ++ dquote ++ _escape_attrib (snd kv) ++ dquote.

(** [if text: write(_escape_cdata(text))], for the text and for the tail
    of an element. *)
Definition write_cdata (text : option string) : string :=
  match text with
  | Some t => if Py.truthy text then _escape_cdata t else ""
  | None => ""
  end.

(** What [_serialize_xml] writes for the element itself, tail excluded:
    the start tag with its attributes, then either the text, the children
    and the end tag, or the short form of an empty element. *)
Fixpoint serialize_element (elem : Element) : string :=
  "<" ++ tag elem ++ Py.join (map write_item (attrib elem)) ++
  (if Py.truthy (text elem) || negb (Nat.eqb (length (children elem)) 0)
   then ">" ++ write_cdata (text elem)
            ++ Py.join (map (fun e => serialize_element e ++ write_cdata (tail e))
                          (children elem))
            ++ "</" ++ tag elem ++ ">"
   else " />").

(** [_serialize_xml] for a plain tag, with [short_empty_elements] set. *)
Definition _serialize_xml (elem : Element) : string :=
  serialize_element elem ++ write_cdata (tail elem).

(** The [xmlcharrefreplace] error handler of the US-ASCII encoder. *)
Fixpoint xmlcharrefreplace (s : string) : string :=
  match s with
  | "" => ""
  | String c s' =>
      (if (128 <=? N_of_ascii c)%N
       then "&#" ++ pretty (N_of_ascii c) ++ ";"
       else String c "") ++ xmlcharrefreplace s'
  end.

(** [ElementTree.tostring(element)]: the serialization, tail included,
    encoded as US-ASCII. *)
Definition tostring (element : Element) : string :=
  xmlcharrefreplace (_serialize_xml element).

(** [element.find(name)] for a plain tag name: the first child with that
    tag, or [None]. *)
Definition find (element : Element) (name : string) : option Element :=
  List.find (fun e => String.eqb (tag e) name) (children element).

End ElementTree.

Import ElementTree.

(** ** The script *)

(** [filter(attrgetter("text"), element)] *)
Definition has_text (child : Element) : bool := Py.truthy (text child).

(** [textify(element)] *)
Definition textify (element : Element) : string :=
  Py.join
    (map (fun child => Py.strip (Py.decode (tostring child)))
         (filter has_text (children element))).

(** [get_id()] *)
Definition get_id (g : Py.rng) : string * Py.rng :=
  let (n, g') := Py.randrange 0 (N.shiftl 1 32) g in
  (Py.format_08x n, g').

(** The [endDate] dictionary of a note. *)
Module EndDate.
Record t : Type := mk {
  seconds : Z;
  year : Z;
  month : Z;
  day : Z;
  hour : Z;
  minute : Z
}.
End EndDate.

(** The dictionary yielded for a note, with its keys in insertion order. *)
Module Note.
Record t : Type := mk {
  id : string;
  content : string;
  playerVisible : bool;
  title : string;
  priority : Z;
  author : string;
  repeats : Z;
  allDay : bool;
  categories : list string;
  remindUsers : list string;
  endDate : EndDate.t;
  year : Z;
  month : Z;
  day : Z;
  hour : Z;
  minute : Z
}.
End Note.

(** [int(fgu_entry.find(element).text)] *)
Definition int_field (fgu_entry : Element) (element : string) : Py.result Z :=
  match find fgu_entry element with
  | None => Py.Raise Py.AttributeError
  | Some e => Py.int (text e)
  end.

(** The [time] dictionary: year, month and day read in this order, then
    hour and minute set to zero. *)
Record Time : Type := mkTime {
  t_year : Z; t_month : Z; t_day : Z; t_hour : Z; t_minute : Z
}.

Definition read_time (fgu_entry : Element) : Py.result Time :=
  Py.bind (int_field fgu_entry "year") (fun y =>
  Py.bind (int_field fgu_entry "month") (fun m =>
  Py.bind (int_field fgu_entry "day") (fun d =>
  Py.Return (mkTime y m d 0 0)))).

(** The dictionary yielded for one variant: the five keys of the variant,
    then the shared [base_entry]. *)
Definition make_note (time : Time) (public_title private_title author : string)
    (is_public : bool) (id content : string) : Note.t :=
  Note.mk id content is_public
    (if is_public then public_title else private_title)
    (if negb is_public then 1 else 0)
    author 0 true [] []
    (EndDate.mk 0 (t_year time) (t_month time) (t_day time)
       (t_hour time) (t_minute time))
    (t_year time) (t_month time) (t_day time) (t_hour time) (t_minute time).

(** What a generator did: the values it yielded, and the exception that
    ended it if one did. *)
Definition yielded (A : Type) : Type := (list A * option Py.exn)%type.

(** The loop of [get_fvtt_entries] over the remaining variants.  A block
    that is absent makes [textify] raise [TypeError], after the notes of
    the earlier variants were yielded. *)
Fixpoint variants_loop (fgu_entry : Element) (time : Time)
    (public_title private_title author : string)
    (variants : list bool) (g : Py.rng) : yielded Note.t * Py.rng :=
  match variants with
  | [] => (([], None), g)
  | is_public :: rest =>
      match find fgu_entry (if is_public then "logentry" else "gmlogentry") with
      | None => (([], Some Py.TypeError), g)
      | Some log =>
          let content := textify log in
          if negb (Py.truthy (Some content))
          then variants_loop fgu_entry time public_title private_title author rest g
          else
            let (id, g1) := get_id g in
            let '((notes, e), g2) :=
              variants_loop fgu_entry time public_title private_title author rest g1 in
            ((make_note time public_title private_title author is_public id content
                :: notes, e), g2)
      end
  end.

(** [get_fvtt_entries(fgu_entry, public_title, private_title, author)], run
    to its end. *)
Definition get_fvtt_entries (fgu_entry : Element)
    (public_title private_title author : string) (g : Py.rng)
    : yielded Note.t * Py.rng :=
  match read_time fgu_entry with
  | Py.Raise e => (([], Some e), g)
  | Py.Return time =>
      variants_loop fgu_entry time public_title private_title author
        [true; false] g
  end.

(** ** json *)

Module Json.

(** A decoded JSON value; an object keeps its keys in insertion order, and
    a float is kept as the text [dumps] writes for it. *)
Inductive value : Type :=
| Null
| Bool (b : bool)
| Int (z : Z)
| Float (repr : string)
| Str (s : string)
| List (items : list value)
| Dict (items : list (string * value)).

(** The four hexadecimal digits of a [\u] escape. *)
Definition u_escape (n : N) : string :=
  String "\" (String "u" (Py.zfill 4 (Py.hex n))).

(** One character of a string, as [ensure_ascii] writes it. *)
Definition escape_char (c : ascii) : string :=
  let n := N_of_ascii c in
  if (n =? 34)%N then String "\" (String "034" "")
  else if (n =? 92)%N then String "\" (String "\" "")
  else if (n =? 10)%N then String "\" "n"
  else if (n =? 13)%N then String "\" "r"
  else if (n =? 9)%N then String "\" "t"
  else if (n =? 8)%N then String "\" "b"
  else if (n =? 12)%N then String "\" "f"
  else if ((32 <=? n) && (n <=? 126))%N then String c ""
  else u_escape n.

Fixpoint escape_chars (s : string) : string :=
  match s with
  | "" => ""
  | String c s' => escape_char c ++ escape_chars s'
  end.

Definition encode_string (s : string) : string :=
  dquote ++ escape_chars s ++ dquote.

(** [sep.join(parts)] *)
Fixpoint join_with (sep : string) (parts : list string) : string :=
  match parts with
  | [] => ""
  | [p] => p
  | p :: rest => p ++ sep ++ join_with sep rest
  end.

(** [json.dumps(v)] with its default options. *)
Fixpoint dumps (v : value) : string :=
  match v with
  | Null => "null"
  | Bool true => "true"
  | Bool false => "false"
  | Int z => pretty z
  | Float repr => repr
  | Str s => encode_string s
  | List items => "[" ++ join_with ", " (map dumps items) ++ "]"
  | Dict items =>
      "{" ++ join_with ", "
               (map (fun kv => encode_string (fst kv) ++ ": " ++ dumps (snd kv))
                    items)
          ++ "}"
  end.

(** [payload[key]] *)
Definition getitem (payload : value) (key : string) : Py.result value :=
  match payload with
  | Dict items =>
      match List.find (fun kv => String.eqb (fst kv) key) items with
      | Some kv => Py.Return (snd kv)
      | None => Py.Raise Py.KeyError
      end
  | _ => Py.Raise Py.TypeError
  end.

(** [items[key] = v] on the items of a dictionary: the value of an
    existing key is replaced in place, a new key is added at the end. *)
Fixpoint set_item (key : string) (v : value) (items : list (string * value))
    : list (string * value) :=
  match items with
  | [] => [(key, v)]
  | kv :: rest =>
      if String.eqb (fst kv) key then (key, v) :: rest
      else kv :: set_item key v rest
  end.

(** [payload[key] = v] *)
Definition setitem (payload : value) (key : string) (v : value)
    : Py.result value :=
  match payload with
  | Dict items => Py.Return (Dict (set_item key v items))
  | _ => Py.Raise Py.TypeError
  end.

(** [v == s] for a string [s]. *)
Definition eq_str (v : value) (s : string) : bool :=
  match v with
  | Str s' => String.eqb s' s
  | _ => false
  end.

End Json.

(** The JSON value of a note. *)
Definition endDate_json (d : EndDate.t) : Json.value :=
  Json.Dict
    [ ("seconds", Json.Int (EndDate.seconds d));
      ("year", Json.Int (EndDate.year d));
      ("month", Json.Int (EndDate.month d));
      ("day", Json.Int (EndDate.day d));
      ("hour", Json.Int (EndDate.hour d));
      ("minute", Json.Int (EndDate.minute d)) ].

Definition note_json (n : Note.t) : Json.value :=
  Json.Dict
    [ ("id", Json.Str (Note.id n));
      ("content", Json.Str (Note.content n));
      ("playerVisible", Json.Bool (Note.playerVisible n));
      ("title", Json.Str (Note.title n));
      ("priority", Json.Int (Note.priority n));
      ("author", Json.Str (Note.author n));
      ("repeats", Json.Int (Note.repeats n));
      ("allDay", Json.Bool (Note.allDay n));
      ("categories", Json.List (map Json.Str (Note.categories n)));
      ("remindUsers", Json.List (map Json.Str (Note.remindUsers n)));
      ("endDate", endDate_json (Note.endDate n));
      ("year", Json.Int (Note.year n));
      ("month", Json.Int (Note.month n));
      ("day", Json.Int (Note.day n));
      ("hour", Json.Int (Note.hour n));
      ("minute", Json.Int (Note.minute n)) ].

(** ** Files *)

Module File.

(** Reading in text mode: a carriage return, with the line feed that
    follows it if there is one, is read as one line feed. *)
Fixpoint universal_newlines (s : string) : string :=
  match s with
  | "" => ""
  | String c s' =>
      if Ascii.eqb c "013"
      then match s' with
           | String d s'' =>
               if Ascii.eqb d "010" then String "010" (universal_newlines s'')
               else String "010" (universal_newlines s')
           | "" => String "010" ""
           end
      else String c (universal_newlines s')
  end.

(** The lines of a text, each with its line feed. *)
Fixpoint split_lines (s : string) : list string :=
  match s with
  | "" => []
  | String c s' =>
      if Ascii.eqb c "010" then String c "" :: split_lines s'
      else match split_lines s' with
           | [] => [String c ""]
           | line :: rest => String c line :: rest
           end
  end.

(** [f.readlines()] from the start of the file, on the text its bytes
    decode to: the text with universal newlines, cut into its lines. *)
Definition readlines (data : string) : list string :=
  split_lines (universal_newlines data).

Fixpoint drop (n : nat) (s : string) : string :=
  match n, s with
  | O, _ => s
  | S n', String _ s' => drop n' s'
  | S _, "" => ""
  end.

(** [f.seek(0); f.writelines(lines)] on a file that holds the bytes [old],
    with no call of [truncate]: each line is encoded, the bytes of the
    lines replace the start of the file, and the bytes the file held
    beyond them stay. *)
Definition overwrite (encode : string -> string) (old : string)
    (lines : list string) : string :=
  let new := Py.join (map encode lines) in
  new ++ drop (String.length new) old.

End File.

(** Text codecs: the decoder gives [None] on bytes that are no text. *)
Module Codec.

(** ISO 8859-1: the byte of a character is its code point, and every
    sequence of bytes is a text. *)
Definition decode_latin_1 (data : string) : option string := Some data.

Definition encode_latin_1 (text : string) : string := text.

(** UTF-8, the encoder: a code point below 128 is one byte, a code point
    from 128 to 255 is two bytes, [0xC0 + c / 64] and [0x80 + c mod 64]. *)
Fixpoint encode_utf_8 (text : string) : string :=
  match text with
  | EmptyString => EmptyString
  | String c rest =>
      let n := N_of_ascii c in
      if (n <? 128)%N then String c (encode_utf_8 rest)
      else String (ascii_of_N (192 + n / 64))
             (String (ascii_of_N (128 + n mod 64)) (encode_utf_8 rest))
  end.

End Codec.

(** ** The main program *)

(** The identifier of the settings entry that holds the calendar notes. *)
Definition CAL_SETTINGS : string := "foundryvtt-simple-calendar.notes".

(** The parsed arguments: the three strings and the names of the two
    files. *)
Record Args : Type := mkArgs {
  arg_author : string;
  arg_public_title : string;
  arg_private_title : string;
  arg_fgu : string;
  arg_fvtt : string
}.

(** [list(chain.from_iterable(map(converter, fgu_db_logs)))], as far as it
    got: the notes of the entries in order, up to the first entry whose
    generator raises. *)
Fixpoint convert_all (public_title private_title author : string)
    (fgu_db_logs : list Element) (g : Py.rng) : yielded Note.t * Py.rng :=
  match fgu_db_logs with
  | [] => (([], None), g)
  | fgu_entry :: rest =>
      let '((notes, e), g1) :=
        get_fvtt_entries fgu_entry public_title private_title author g in
      match e with
      | Some _ => ((notes, e), g1)
      | None =>
          let '((notes', e'), g2) :=
            convert_all public_title private_title author rest g1 in
          (((notes ++ notes')%list, e'), g2)
      end
  end.

(** [f"{name}.bak.{index}"] *)
Definition backup_name (name : string) (index : nat) : string :=
  name ++ ".bak." ++ pretty index.

(** The [while] loop that looks for an unused backup name, from [index]
    on, for at most [fuel] rounds. *)
Fixpoint backup_index_from (fuel : nat) (fs : gmap string string)
    (name : string) (index : nat) : nat :=
  match fuel with
  | O => index
  | S fuel' =>
      if bool_decide (is_Some (fs !! backup_name name index))
      then backup_index_from fuel' fs name (S index)
      else index
  end.

(** The index the loop stops at.  A file system with [n] files holds at
    most [n] of the [n + 1] first backup names, so [n + 1] rounds are
    enough ([backup_index_spec]). *)
Definition backup_index (fs : gmap string string) (name : string) : nat :=
  backup_index_from (S (size fs)) fs name 0.

(** [fgu_db_root.find("./calendar/log")]: the first [log] child of a
    [calendar] child of the root. *)
Definition find_calendar_log (fgu_db_root : Element) : option Element :=
  head (concat (map (fun calendar =>
                       filter (fun e => String.eqb (tag e) "log")
                              (children calendar))
                    (filter (fun e => String.eqb (tag e) "calendar")
                            (children fgu_db_root)))).

(** The children of the log that are entries: every child but the
    [public] marker. *)
Definition log_entries (log : Element) : list Element :=
  filter (fun child => negb (String.eqb (tag child) "public")) (children log).

(** The file system once the backup is made. *)
Definition with_backup (fs : gmap string string) (name text : string)
    : gmap string string :=
  <[backup_name name (backup_index fs name) := text]> fs.

Section Main.

(** [ElementTree.parse(f).getroot()] on the bytes of the source file, and
    [json.loads]. *)
Variable parse : string -> Py.result Element.
Variable loads : string -> Py.result Json.value.

(** The text layer of the settings file, which is opened in text mode with
    the codec of the locale, a codec without state: [decode] gives the text
    of the bytes of the file, or [None] where [readlines] raises
    [UnicodeDecodeError]; [encode] gives the bytes that a [write] of a
    string puts in the file, the line separator of the platform in place
    of each line feed.  The script writes the lines it has read and one
    line of US-ASCII characters. *)
Variable decode : string -> option string.
Variable encode : string -> string.

(** The [for ... else] loop over the lines of the settings file: the
    number and the payload of the first line whose key is [CAL_SETTINGS],
    or [None] when the loop runs to its end. *)
Fixpoint find_settings (lines : list string) (line_number : nat)
    : Py.result (option (nat * Json.value)) :=
  match lines with
  | [] => Py.Return None
  | line :: rest =>
      Py.bind (loads (Py.strip line)) (fun payload =>
      Py.bind (Json.getitem payload "key") (fun key =>
      if Json.eq_str key CAL_SETTINGS
      then Py.Return (Some (line_number, payload))
      else find_settings rest (S line_number)))
  end.

(** The state of a run: the files by name, and the random generator. *)
Definition world : Type := (gmap string string * Py.rng)%type.

(** The program from the parsing of its arguments to its exit.  The result
    is the final file system, which holds the bytes of each file, and the
    exception the process ends with; standard output is not part of the
    model. *)
Definition main (args : Args) (w : world) : gmap string string * Py.exn :=
  let (fs, g) := w in
  (* parse_args opens both files *)
  match fs !! arg_fgu args, fs !! arg_fvtt args with
  | Some fgu_data, Some fvtt_data =>
      (* Back up the settings file prior to any modification. *)
      let fs1 := with_backup fs (arg_fvtt args) fvtt_data in
      (* Parse the db.xml file. *)
      match parse fgu_data with
      | Py.Raise e => (fs1, e)
      | Py.Return fgu_db_root =>
          (* Collect the set of log entries. *)
          match find_calendar_log fgu_db_root with
          | None => (fs1, Py.TypeError)
          | Some log =>
              let fgu_db_logs := log_entries log in
              (* Get the entries for FVTT. *)
              match convert_all (arg_public_title args) (arg_private_title args)
                      (arg_author args) fgu_db_logs g with
              | ((_, Some e), _) => (fs1, e)
              | ((fvtt_entries, None), _) =>
                  match fvtt_entries !! 50%nat with
                  | None => (fs1, Py.IndexError)
                  | Some _ =>
                      (* Read the FVTT settings. *)
                      match decode fvtt_data with
                      | None => (fs1, Py.UnicodeDecodeError)
                      | Some fvtt_text =>
                      let lines := File.readlines fvtt_text in
                      match find_settings lines 0 with
                      | Py.Raise e => (fs1, e)
                      | Py.Return None =>
                          (fs1, Py.SystemExit
                                  (Py.ExitMessage
                                     ("Failed to find settings: " ++ CAL_SETTINGS)))
                      | Py.Return (Some (line_number, payload)) =>
                          (* Process the relevant entry. *)
                          match Json.setitem payload "value"
                                  (Json.Str (Json.dumps
                                     (Json.List (map note_json fvtt_entries)))) with
                          | Py.Raise e => (fs1, e)
                          | Py.Return payload' =>
                              (* Modify the relevant line. *)
                              let lines' :=
                                <[line_number :=
                                    Json.dumps payload' ++ String "010" ""]> lines in
                              (* Overwrite the settings. *)
                              (<[arg_fvtt args :=
                                   File.overwrite encode fvtt_data lines']> fs1,
                               Py.SystemExit Py.ExitNone)
                          end
                      end
                      end
                  end
              end
          end
      end
  | _, _ => (fs, Py.SystemExit (Py.ExitCode 2))
  end.

End Main.

(** ** Vocabulary of the statements *)

(** A lowercase hexadecimal digit. *)
Definition is_lower_hex (c : ascii) : bool :=
  let n := N_of_ascii c in
  ((48 <=? n) && (n <=? 57) || (97 <=? n) && (n <=? 102))%N.

Fixpoint all_chars (p : ascii -> bool) (s : string) : bool :=
  match s with
  | "" => true
  | String c s' => p c && all_chars p s'
  end.

(** The number a string of lowercase hexadecimal digits denotes. *)
Definition hex_digit_value (c : ascii) : N :=
  let n := N_of_ascii c in if (n <=? 57)%N then (n - 48)%N else (n - 87)%N.

Fixpoint hex_value_from (acc : N) (s : string) : N :=
  match s with
  | "" => acc
  | String c s' => hex_value_from (16 * acc + hex_digit_value c)%N s'
  end.

Definition hex_value (s : string) : N := hex_value_from 0 s.

(** Two notes that agree on every key but [id]. *)
Definition same_but_id (a b : Note.t) : Prop :=
  Note.content a = Note.content b /\
  Note.playerVisible a = Note.playerVisible b /\
  Note.title a = Note.title b /\
  Note.priority a = Note.priority b /\
  Note.author a = Note.author b /\
  Note.repeats a = Note.repeats b /\
  Note.allDay a = Note.allDay b /\
  Note.categories a = Note.categories b /\
  Note.remindUsers a = Note.remindUsers b /\
  Note.endDate a = Note.endDate b /\
  Note.year a = Note.year b /\
  Note.month a = Note.month b /\
  Note.day a = Note.day b /\
  Note.hour a = Note.hour b /\
  Note.minute a = Note.minute b.

(** The identifier the generator [g] gives to the note number [i] of a
    run: the format of its raw value number [i], brought into 32 bits. *)
Definition nth_id (g : Py.rng) (i : nat) : string :=
  Py.format_08x (Py.entropy g (Py.used g + i)%nat mod 2 ^ 32)%N.





(** The notes [notes] took their identifiers from [g], one raw value each
    and in order, and left the generator as [g']. *)
Definition draws_in_order (g : Py.rng) (notes : list Note.t) (g' : Py.rng) : Prop :=
  map Note.id notes = map (nth_id g) (seq 0 (length notes)) /\
  Py.entropy g' = Py.entropy g /\
  Py.used g' = (Py.used g + length notes)%nat.

(** ** Sample data *)

Module Sample.

Definition rng0 : Py.rng :=
  Py.mkRng (fun i => (N.of_nat i * 2654435761 + 12345)%N) 0.

Definition number (name value : string) : Element :=
  mkElement name [("type", "number")] (Some value) None [].

Definition block (name : string) (paragraphs : list Element) : Element :=
  mkElement name [("type", "formattedtext")] None None paragraphs.

Definition p (text tail : option string) : Element :=
  mkElement "p" [] text tail [].

(** An entry as the export writes it, without its year. *)
Definition entry_fields (day : string) (public private : list Element)
    : list Element :=
  [ mkElement "public" [] None None [];
    number "day" day;
    block "gmlogentry" private;
    block "logentry" public;
    number "month" "1";
    mkElement "name" [("type", "string")] (Some "9th Abadius, 4721 ") None [] ].

Definition entry (year day : string) (public private : list Element) : Element :=
  mkElement "id-00134" [] None None
    (entry_fields day public private ++ [number "year" year]).

Definition entry_both : Element :=
  entry "4721" "9"
    [p (Some "Returned to Elesomare.") None]
    [p (Some "Left Karina in Sharvaros' company.") None].

Definition entry_public : Element :=
  entry "4721" "10" [p (Some "Spoke with Sharvaros.") None] [p None None].

Definition entry_empty : Element :=
  entry "4721" "10" [p None None] [p None None].



(** A paragraph of white space that holds markup, and the block of a
    paragraph without text around it. *)
Definition p_blank : Element :=
  mkElement "p" [] (Some " ") None [mkElement "b" [] (Some "bold") None []].

Definition p_nested : Element :=
  mkElement "p" [("class", "note")] None (Some "after")
    [mkElement "b" [] (Some "bold") None []].

(** A paragraph followed by text, and a block that holds it. *)
Definition p_tail : Element :=
  p (Some "Returned to Elesomare.")
    (Some (" Then left." ++ String "010" "  ")).

Definition block_tail : Element := block "logentry" [p None None; p_tail].

Definition log (entries : list Element) : Element :=
  mkElement "log" [] None None (mkElement "public" [] None None [] :: entries).

Definition db (entries : list Element) : Element :=
  mkElement "root" [] None None [mkElement "calendar" [] None None [log entries]].

(** A parser that knows one document: the text [tostring] writes for
    [fgu_db_root]. *)
Definition parse_of (fgu_db_root : Element) (text : string) : Py.result Element :=
  if String.eqb text (tostring fgu_db_root) then Py.Return fgu_db_root
  else Py.Raise Py.ParseError.

(** A decoder that knows the lines [dumps] writes for [payloads]. *)
Definition loads_of (payloads : list Json.value) (s : string)
    : Py.result Json.value :=
  match List.find (fun v => String.eqb (Json.dumps v) s) payloads with
  | Some v => Py.Return v
  | None => Py.Raise Py.ValueError
  end.

Definition setting (key : string) (v : Json.value) : Json.value :=
  Json.Dict [("key", Json.Str key); ("value", v)].

(** The text of a settings file, one payload on each line. *)
Definition settings_text (payloads : list Json.value) : string :=
  Py.join (map (fun v => Json.dumps v ++ String "010" "") payloads).

Definition args : Args := mkArgs "zph8yxjDa80f9VnL" "Journal" "Notes" "db.xml" "settings.db".

(** The files of a run: the source, the settings, and a backup from an
    earlier run. *)
Definition files (fgu_db_root : Element) (payloads : list Json.value)
    : gmap string string :=
  <["db.xml" := tostring fgu_db_root]>
    (<["settings.db" := settings_text payloads]>
       (<["settings.db.bak.0" := "{}"]> ∅)).

(** A source of two notes; a source of 51 notes; a source with an entry
    whose year is not a number. *)
Definition db_small : Element := db [entry_both].
Definition db_large : Element := db (replicate 51 entry_public).

(** Settings without the calendar notes; settings whose calendar notes take
    more room than the notes of [db_large]. *)
Definition settings_other : list Json.value :=
  [setting "core.time" (Json.Int 0)].

Definition settings_long : list Json.value :=
  [ setting "core.time" (Json.Int 0);
    setting CAL_SETTINGS (Json.Str (Py.zeros (N.to_nat 30000)));
    setting "core.language" (Json.Str "en") ].

(** The run over [db_large] and [settings_long]: the notes it makes, the
    text it means the settings file to hold, and what the settings file
    held beyond the length of that text. *)
Definition notes_large : list Note.t :=
  fst (fst (convert_all (arg_public_title args) (arg_private_title args)
              (arg_author args) (replicate 51 entry_public) rng0)).

Definition rng_large : Py.rng :=
  snd (convert_all (arg_public_title args) (arg_private_title args)
         (arg_author args) (replicate 51 entry_public) rng0).

Definition notes_small : list Note.t :=
  fst (fst (convert_all (arg_public_title args) (arg_private_title args)
              (arg_author args) [entry_both] rng0)).

Definition rng_small : Py.rng :=
  snd (convert_all (arg_public_title args) (arg_private_title args)
         (arg_author args) [entry_both] rng0).

Definition new_text : string :=
  settings_text
    [ setting "core.time" (Json.Int 0);
      setting CAL_SETTINGS
        (Json.Str (Json.dumps (Json.List (map note_json notes_large))));
      setting "core.language" (Json.Str "en") ].

Definition stale : string :=
  File.drop (String.length new_text) (settings_text settings_long).

End Sample.

(** ** Further vocabulary and sample data *)

(** A child that [textify] skips. *)
Definition no_text (child : Element) : Prop :=
  text child = None \/ text child = Some "".

(** A character of US-ASCII; a printable one. *)
Definition is_ascii (c : ascii) : bool := (N_of_ascii c <? 128)%N.

Definition is_printable (c : ascii) : bool :=
  ((32 <=? N_of_ascii c) && (N_of_ascii c <=? 126))%N.

Definition is_cr (c : ascii) : bool := Ascii.eqb c "013".

(** The keys of the items of a dictionary, in order. *)
Definition keys (items : list (string * Json.value)) : list string :=
  map fst items.

(** A line the loop over the settings goes over without stopping: it
    decodes to an object whose key is not the one looked for. *)
Definition passed_over (loads : string -> Py.result Json.value) (line : string)
    : Prop :=
  exists payload key,
    loads (Py.strip line) = Py.Return payload /\
    Json.getitem payload "key" = Py.Return key /\
    Json.eq_str key CAL_SETTINGS = false.


Module Cases.

(** An entry with a private text only; an entry without its private block;
    an entry without its public block. *)
Definition entry_private : Element :=
  Sample.entry "4721" "13" [Sample.p None None]
    [Sample.p (Some "The seal is a forgery.") None].

Definition entry_no_gm : Element :=
  mkElement "id-00136" [] None None
    [ Sample.number "day" "14";
      Sample.block "logentry" [Sample.p (Some "Sailed at dawn.") None];
      Sample.number "month" "1";
      Sample.number "year" "4721" ].

Definition entry_no_public : Element :=
  mkElement "id-00137" [] None None
    [ Sample.number "day" "15";
      Sample.block "gmlogentry" [Sample.p (Some "Nobody noticed.") None];
      Sample.number "month" "1";
      Sample.number "year" "4721" ].

(** A document without a calendar. *)
Definition db_no_calendar : Element :=
  mkElement "root" [] None None [mkElement "charsheet" [] None None []].

(** Settings whose calendar notes are an empty list; settings with a line
    that is a list before the line of the calendar notes. *)
Definition settings_short : list Json.value :=
  [ Sample.setting "core.time" (Json.Int 0);
    Sample.setting CAL_SETTINGS (Json.Str "[]");
    Sample.setting "core.language" (Json.Str "en") ].

Definition settings_list_first : list Json.value :=
  [ Json.List [];
    Sample.setting CAL_SETTINGS (Json.Str "[]") ].

(** The text that the run over [Sample.db_large] and [settings_short]
    means the settings file to hold. *)
Definition new_text_short : string :=
  Sample.settings_text
    [ Sample.setting "core.time" (Json.Int 0);
      Sample.setting CAL_SETTINGS
        (Json.Str (Json.dumps (Json.List (map note_json Sample.notes_large))));
      Sample.setting "core.language" (Json.Str "en") ].

(** The line of a payload in the settings file. *)
Definition line (v : Json.value) : string := Json.dumps v ++ String "010" "".

(** A generator that delivers the same raw value every time. *)
Definition rng_constant : Py.rng := Py.mkRng (fun _ => 7%N) 0.

(** A text of two lines, the first of five letters e with an acute accent
    (code point 233), which UTF-8 stores in two bytes each. *)
Definition accented : string :=
  string_of_list_ascii (replicate 5 "233"%char) ++ String "010" ""
  ++ "abc" ++ String "010" "".

End Cases.

(** * Properties *)

(** ** Strings *)

Section StringFacts.

Lemma str_app_nil_l (s : string) : "" ++ s = s.
Proof. reflexivity. Qed.

Lemma str_app_cons (c : ascii) (s t : string) : String c s ++ t = String c (s ++ t).
Proof. reflexivity. Qed.

Lemma str_app_assoc (s t u : string) : (s ++ t) ++ u = s ++ t ++ u.
Proof.
  induction s as [|c s IH]; [reflexivity|].
  rewrite !str_app_cons, IH. reflexivity.
Qed.

Lemma str_length_app (s t : string) :
  String.length (s ++ t) = (String.length s + String.length t)%nat.
Proof.
  induction s as [|c s IH]; [reflexivity|].
  rewrite str_app_cons. simpl. rewrite IH. reflexivity.
Qed.

Lemma join_app (l1 l2 : list string) :
  Py.join (l1 ++ l2)%list = Py.join l1 ++ Py.join l2.
Proof.
  induction l1 as [|s l1 IH]; [reflexivity|].
  simpl. rewrite IH, str_app_assoc. reflexivity.
Qed.

Lemma truthy_false (o : option string) :
  Py.truthy o = false <-> o = None \/ o = Some "".
Proof.
  destruct o as [s|]; simpl.
  - rewrite negb_false_iff, String.eqb_eq. split.
    + intros ->. right. reflexivity.
    + intros [H|H]; [discriminate|]. injection H as ->. reflexivity.
  - split; auto.
Qed.

Lemma truthy_Some (s : string) : Py.truthy (Some s) = true <-> s <> "".
Proof. simpl. rewrite negb_true_iff, String.eqb_neq. reflexivity. Qed.

(** Stripping on the left stops at the first character that stays. *)
Lemma lstrip_by_keep (p : ascii -> bool) (c : ascii) (s : string) :
  p c = false -> Py.lstrip_by p (String c s) = String c s.
Proof. intros H. simpl. rewrite H. reflexivity. Qed.

Lemma rstrip_by_keep (p : ascii -> bool) (c : ascii) (s : string) :
  p c = false -> Py.rstrip_by p (String c s) = String c (Py.rstrip_by p s).
Proof.
  intros H. simpl. rewrite H. destruct (Py.rstrip_by p s); reflexivity.
Qed.

(** Stripping on the right never goes past a character that stays. *)
Lemma rstrip_by_app_keep (p : ascii -> bool) (s : string) (c : ascii) (t : string) :
  p c = false ->
  Py.rstrip_by p (s ++ String c t) = s ++ String c (Py.rstrip_by p t).
Proof.
  intros H. induction s as [|a s IH].
  - rewrite !str_app_nil_l. apply rstrip_by_keep, H.
  - rewrite !str_app_cons. simpl. rewrite IH.
    destruct s; [rewrite str_app_nil_l|rewrite str_app_cons]; reflexivity.
Qed.

Lemma xmlcharrefreplace_app (s t : string) :
  xmlcharrefreplace (s ++ t) = xmlcharrefreplace s ++ xmlcharrefreplace t.
Proof.
  induction s as [|c s IH]; [reflexivity|].
  rewrite str_app_cons. simpl. rewrite IH, str_app_assoc. reflexivity.
Qed.

End StringFacts.

(** ** The serialization of a child *)

(** The markup of an element opens with its start tag and closes with the
    end of a tag. *)
Lemma serialize_element_shape (elem : Element) :
  exists m, serialize_element elem = String "<" (m ++ ">").
Proof.
  destruct elem as [tg at_ tx tl ch]. simpl.
  set (items := Py.join (map write_item at_)).
  set (inner := Py.join (map _ ch)).
  destruct (Py.truthy tx || negb (Nat.eqb (length ch) 0)).
  - exists (tg ++ items ++ ">" ++ write_cdata tx ++ inner ++ "</" ++ tg).
    rewrite str_app_cons, str_app_nil_l. f_equal.
    rewrite !str_app_assoc. reflexivity.
  - exists (tg ++ items ++ " /").
    rewrite str_app_cons, str_app_nil_l. f_equal.
    rewrite !str_app_assoc. reflexivity.
Qed.

Lemma xmlcharrefreplace_markup (m : string) :
  xmlcharrefreplace (String "<" (m ++ ">")) =
  String "<" (xmlcharrefreplace m ++ ">").
Proof.
  change (String "<" (m ++ ">")) with ("<" ++ m ++ ">").
  rewrite !xmlcharrefreplace_app. reflexivity.
Qed.

(** What a child that is kept adds to the text of its block: its markup,
    then its escaped tail without the white space at its end. *)
Lemma strip_tostring (child : Element) :
  Py.strip (Py.decode (tostring child)) =
  xmlcharrefreplace (serialize_element child) ++
  Py.rstrip (xmlcharrefreplace (write_cdata (tail child))).
Proof.
  unfold Py.decode, tostring, _serialize_xml, Py.strip, Py.lstrip, Py.rstrip.
  rewrite xmlcharrefreplace_app.
  destruct (serialize_element_shape child) as [m ->].
  rewrite xmlcharrefreplace_markup.
  set (M := xmlcharrefreplace m).
  set (T := xmlcharrefreplace (write_cdata (tail child))).
  rewrite str_app_cons, lstrip_by_keep by reflexivity.
  rewrite str_app_assoc.
  change (String "<" (M ++ ">" ++ T)) with (String "<" M ++ String ">" T).
  rewrite rstrip_by_app_keep by reflexivity.
  rewrite !str_app_cons, str_app_assoc. reflexivity.
Qed.

Lemma strip_tostring_nonempty (child : Element) :
  Py.strip (Py.decode (tostring child)) <> "".
Proof.
  rewrite strip_tostring.
  destruct (serialize_element_shape child) as [m ->].
  rewrite xmlcharrefreplace_markup, str_app_cons. discriminate.
Qed.

(** [textify] reads the children of the block only, one after the other. *)
Lemma textify_children (tg : string) (at_ : list (string * string))
    (tx tl : option string) (before after : list Element) (child : Element) :
  textify (mkElement tg at_ tx tl (before ++ child :: after)) =
  textify (mkElement tg at_ tx tl before) ++
  (if has_text child then Py.strip (Py.decode (tostring child)) else "") ++
  textify (mkElement tg at_ tx tl after).
Proof.
  unfold textify. simpl.
  rewrite filter_app, map_app, join_app. f_equal.
  rewrite filter_cons. destruct (decide (has_text child)) as [H|H].
  - apply Is_true_true in H. rewrite H. reflexivity.
  - apply Is_true_false in H. rewrite H. reflexivity.
Qed.

Lemma textify_app (tg : string) (at_ : list (string * string))
    (tx tl : option string) (before after : list Element) :
  textify (mkElement tg at_ tx tl (before ++ after)) =
  textify (mkElement tg at_ tx tl before) ++ textify (mkElement tg at_ tx tl after).
Proof. unfold textify. simpl. rewrite filter_app, map_app, join_app. reflexivity. Qed.

(** ** [textify] *)

(** C6: [textify] skips a direct child exactly when the text of the child
    is absent or empty.  A skipped child adds nothing to the result,
    whatever its attributes, children and tail are; a child that is kept
    adds a fragment that is never empty; and a child whose text is any
    string but the empty one, white space included, is kept. *)
Theorem textify_skips_child_iff_text_empty :
  forall (tg : string) (at_ : list (string * string)) (tx tl : option string)
         (before after : list Element) (child : Element),
    (has_text child = false <-> text child = None \/ text child = Some "") /\
    (text child = None \/ text child = Some "" ->
     textify (mkElement tg at_ tx tl (before ++ child :: after)) =
     textify (mkElement tg at_ tx tl (before ++ after))) /\
    (~ (text child = None \/ text child = Some "") ->
     Py.strip (Py.decode (tostring child)) <> "" /\
     textify (mkElement tg at_ tx tl (before ++ child :: after)) =
     textify (mkElement tg at_ tx tl before) ++
     Py.strip (Py.decode (tostring child)) ++
     textify (mkElement tg at_ tx tl after)) /\
    (forall (c : ascii) (ws : string),
       text child = Some (String c ws) -> has_text child = true).
Proof.
  intros tg at_ tx tl before after child.
  assert (Hiff : has_text child = false <->
                 text child = None \/ text child = Some "")
    by apply truthy_false.
  split; [exact Hiff|]. split; [|split].
  - intros H. apply Hiff in H.
    rewrite textify_children, H, str_app_nil_l, textify_app. reflexivity.
  - intros H. split; [apply strip_tostring_nonempty|].
    rewrite textify_children.
    destruct (has_text child) eqn:E; [reflexivity|].
    exfalso. apply H, Hiff. reflexivity.
  - intros c ws H. unfold has_text. rewrite H. reflexivity.
Qed.

(** C10: a child that is kept is serialized together with its tail: what it
    adds to the text of its block is its markup (its tag, attributes, text
    and nested markup) followed by its escaped tail text, from which only
    the white space at the end is removed. *)
Theorem textify_serializes_tail :
  forall (tg : string) (at_ : list (string * string)) (tx tl : option string)
         (before after : list Element) (child : Element) (t : string),
    has_text child = true ->
    tail child = Some t ->
    textify (mkElement tg at_ tx tl (before ++ child :: after)) =
    textify (mkElement tg at_ tx tl before) ++
    (xmlcharrefreplace (serialize_element child) ++
     Py.rstrip (xmlcharrefreplace (_escape_cdata t))) ++
    textify (mkElement tg at_ tx tl after).
Proof.
  intros tg at_ tx tl before after child t Hkept Htail.
  rewrite textify_children, Hkept, strip_tostring, Htail.
  do 3 f_equal. unfold write_cdata.
  destruct (Py.truthy (Some t)) eqn:E; [reflexivity|].
  apply truthy_false in E as [E|E]; [discriminate|].
  injection E as ->. reflexivity.
Qed.

(** ** [get_fvtt_entries] *)

Lemma variants_loop_cons (fgu_entry : Element) (time : Time)
    (pt prt author : string) (is_public : bool) (rest : list bool) (g : Py.rng) :
  variants_loop fgu_entry time pt prt author (is_public :: rest) g =
  match find fgu_entry (if is_public then "logentry" else "gmlogentry") with
  | None => (([], Some Py.TypeError), g)
  | Some log =>
      if negb (Py.truthy (Some (textify log)))
      then variants_loop fgu_entry time pt prt author rest g
      else
        let (id, g1) := get_id g in
        let '((notes, e), g2) :=
          variants_loop fgu_entry time pt prt author rest g1 in
        ((make_note time pt prt author is_public id (textify log) :: notes, e), g2)
  end.
Proof. reflexivity. Qed.

Lemma read_time_fields (fgu_entry : Element) (y m d : Z) :
  int_field fgu_entry "year" = Py.Return y ->
  int_field fgu_entry "month" = Py.Return m ->
  int_field fgu_entry "day" = Py.Return d ->
  read_time fgu_entry = Py.Return (mkTime y m d 0 0).
Proof. intros Hy Hm Hd. unfold read_time. rewrite Hy, Hm, Hd. reflexivity. Qed.

(** C1: an entry whose public and private blocks both render to a text
    that is not empty yields exactly two notes, the public one first, with
    priority 0 and 1, and with the same year, month, day, author and
    endDate. *)
Theorem get_fvtt_entries_both_blocks :
  forall (fgu_entry : Element) (public_title private_title author : string)
         (g : Py.rng) (y m d : Z) (pub priv : Element),
    int_field fgu_entry "year" = Py.Return y ->
    int_field fgu_entry "month" = Py.Return m ->
    int_field fgu_entry "day" = Py.Return d ->
    find fgu_entry "logentry" = Some pub ->
    find fgu_entry "gmlogentry" = Some priv ->
    textify pub <> "" ->
    textify priv <> "" ->
    exists (n1 n2 : Note.t) (g' : Py.rng),
      get_fvtt_entries fgu_entry public_title private_title author g =
        (([n1; n2], None), g') /\
      (Note.playerVisible n1 = true /\ Note.content n1 = textify pub /\
       Note.title n1 = public_title /\ Note.priority n1 = 0%Z) /\
      (Note.playerVisible n2 = false /\ Note.content n2 = textify priv /\
       Note.title n2 = private_title /\ Note.priority n2 = 1%Z) /\
      Note.year n1 = Note.year n2 /\
      Note.month n1 = Note.month n2 /\
      Note.day n1 = Note.day n2 /\
      Note.author n1 = Note.author n2 /\
      Note.endDate n1 = Note.endDate n2.
Proof.
  intros fgu_entry pt prt author g y m d pub priv Hy Hm Hd Hpub Hpriv Tpub Tpriv.
  unfold get_fvtt_entries. rewrite (read_time_fields _ _ _ _ Hy Hm Hd).
  rewrite variants_loop_cons, Hpub.
  apply truthy_Some in Tpub. rewrite Tpub. cbn [negb].
  destruct (get_id g) as [id1 g1].
  rewrite variants_loop_cons, Hpriv.
  apply truthy_Some in Tpriv. rewrite Tpriv. cbn [negb].
  destruct (get_id g1) as [id2 g2]. cbn [variants_loop].
  eexists _, _, _. split; [reflexivity|]. cbn. repeat split.
Qed.

(** What every yielded note is: the note of one of the variants, built
    from a block that is present and whose text is not empty. *)
Lemma variants_loop_notes (fgu_entry : Element) (time : Time)
    (pt prt author : string) (variants : list bool) (g : Py.rng) (n : Note.t) :
  In n (fst (fst (variants_loop fgu_entry time pt prt author variants g))) ->
  exists log,
    find fgu_entry (if Note.playerVisible n then "logentry" else "gmlogentry")
      = Some log /\
    Note.content n = textify log /\ textify log <> "".
Proof.
  revert g. induction variants as [|is_public rest IH]; intros g;
    [cbn; intros Hf; destruct Hf|].
  rewrite variants_loop_cons.
  destruct (find fgu_entry (if is_public then _ else _)) as [log|] eqn:Hlog;
    [|cbn; intros Hf; destruct Hf].
  destruct (Py.truthy (Some (textify log))) eqn:Htext; cbn [negb].
  - destruct (get_id g) as [id g1].
    specialize (IH g1).
    destruct (variants_loop fgu_entry time pt prt author rest g1) as [[notes e] g2].
    cbn [fst In]. intros [<-|Hin]; [|apply IH, Hin].
    exists log. cbn. split; [exact Hlog|]. split; [reflexivity|].
    apply truthy_Some, Htext.
  - apply IH.
Qed.

(** C2: an entry whose two blocks both render to the empty text yields no
    note.  In general every note that is yielded carries the text of the
    block of its variant and that text is not empty, so that a variant
    whose text is empty gives no note. *)
Theorem get_fvtt_entries_no_empty_note :
  forall (fgu_entry : Element) (public_title private_title author : string)
         (g : Py.rng),
    (forall (y m d : Z) (pub priv : Element),
       int_field fgu_entry "year" = Py.Return y ->
       int_field fgu_entry "month" = Py.Return m ->
       int_field fgu_entry "day" = Py.Return d ->
       find fgu_entry "logentry" = Some pub ->
       find fgu_entry "gmlogentry" = Some priv ->
       textify pub = "" ->
       textify priv = "" ->
       get_fvtt_entries fgu_entry public_title private_title author g =
         (([], None), g)) /\
    (forall n : Note.t,
       In n (fst (fst (get_fvtt_entries fgu_entry public_title private_title
                         author g))) ->
       Note.content n <> "" /\
       exists log,
         find fgu_entry
           (if Note.playerVisible n then "logentry" else "gmlogentry") = Some log /\
         Note.content n = textify log).
Proof.
  intros fgu_entry pt prt author g. split.
  - intros y m d pub priv Hy Hm Hd Hpub Hpriv Tpub Tpriv.
    unfold get_fvtt_entries. rewrite (read_time_fields _ _ _ _ Hy Hm Hd).
    rewrite variants_loop_cons, Hpub, Tpub. cbn [Py.truthy String.eqb negb].
    rewrite variants_loop_cons, Hpriv, Tpriv. reflexivity.
  - intros n. unfold get_fvtt_entries.
    destruct (read_time fgu_entry) as [time|e]; [|cbn; intros Hf; destruct Hf].
    intros Hin. apply variants_loop_notes in Hin as (log & Hlog & Hc & Hne).
    split; [rewrite Hc; exact Hne|]. exists log. auto.
Qed.

(** ** [get_id] *)

Section Hex.

Local Open Scope N_scope.

Lemma hex_go_acc (fuel : nat) (n : N) (acc : string) :
  Py.hex_go fuel n acc = (Py.hex_go fuel n "" ++ acc)%string.
Proof.
  revert n acc. induction fuel as [|fuel IH]; intros n acc; [reflexivity|].
  simpl. destruct (n =? 0); [reflexivity|].
  rewrite IH, (IH _ (String _ "")), str_app_assoc. reflexivity.
Qed.

Lemma hex_go_step (fuel : nat) (n : N) :
  n <> 0 ->
  Py.hex_go (S fuel) n "" =
  (Py.hex_go fuel (n / 16) "" ++ String (Py.hex_char (n mod 16)) "")%string.
Proof.
  intros Hn. simpl. apply N.eqb_neq in Hn. rewrite Hn. apply hex_go_acc.
Qed.

Lemma hex_go_zero (fuel : nat) : Py.hex_go fuel 0 "" = ""%string.
Proof. destruct fuel; reflexivity. Qed.

Lemma hex_char_cases (d : N) :
  d < 16 ->
  In d [0; 1; 2; 3; 4; 5; 6; 7; 8; 9; 10; 11; 12; 13; 14; 15].
Proof.
  intros H. cbn.
  destruct (N.eq_dec d 0); [auto 20|]. destruct (N.eq_dec d 1); [auto 20|].
  destruct (N.eq_dec d 2); [auto 20|]. destruct (N.eq_dec d 3); [auto 20|].
  destruct (N.eq_dec d 4); [auto 20|]. destruct (N.eq_dec d 5); [auto 20|].
  destruct (N.eq_dec d 6); [auto 20|]. destruct (N.eq_dec d 7); [auto 20|].
  destruct (N.eq_dec d 8); [auto 20|]. destruct (N.eq_dec d 9); [auto 20|].
  destruct (N.eq_dec d 10); [auto 20|]. destruct (N.eq_dec d 11); [auto 20|].
  destruct (N.eq_dec d 12); [auto 20|]. destruct (N.eq_dec d 13); [auto 20|].
  destruct (N.eq_dec d 14); [auto 20|]. destruct (N.eq_dec d 15); [auto 20|].
  lia.
Qed.

Lemma hex_char_ok (d : N) :
  d < 16 ->
  is_lower_hex (Py.hex_char d) = true /\ hex_digit_value (Py.hex_char d) = d.
Proof.
  intros H. apply hex_char_cases in H. cbn in H.
  repeat (destruct H as [<-|H]; [split; reflexivity|]). destruct H.
Qed.

Lemma hex_digit_value_ok (c : ascii) :
  is_lower_hex c = true ->
  hex_digit_value c < 16 /\ Py.hex_char (hex_digit_value c) = c.
Proof.
  destruct c as [[] [] [] [] [] [] [] []]; cbv; intros H;
    first [discriminate H | split; reflexivity].
Qed.

Lemma all_chars_app (p : ascii -> bool) (s t : string) :
  all_chars p (s ++ t)%string = all_chars p s && all_chars p t.
Proof.
  induction s as [|c s IH]; [reflexivity|].
  rewrite str_app_cons. simpl. rewrite IH, andb_assoc. reflexivity.
Qed.

Lemma hex_value_from_app (acc : N) (s t : string) :
  hex_value_from acc (s ++ t)%string = hex_value_from (hex_value_from acc s) t.
Proof.
  revert acc. induction s as [|c s IH]; intros acc; [reflexivity|].
  rewrite str_app_cons. simpl. apply IH.
Qed.

(** The digits [hex_go] writes: lowercase, as many as the number needs, and
    denoting the number. *)
Lemma hex_go_ok (fuel : nat) (n : N) :
  n < 16 ^ N.of_nat fuel ->
  all_chars is_lower_hex (Py.hex_go fuel n "") = true /\
  hex_value (Py.hex_go fuel n "") = n /\
  (forall k : nat, n < 16 ^ N.of_nat k ->
                   (String.length (Py.hex_go fuel n "") <= k)%nat).
Proof.
  revert n. induction fuel as [|fuel IH]; intros n Hn.
  - simpl in Hn. assert (n = 0) as -> by lia.
    repeat split. intros k _. simpl. lia.
  - destruct (N.eq_dec n 0) as [->|Hne].
    + rewrite hex_go_zero. repeat split. intros k _. simpl. lia.
    + rewrite hex_go_step by exact Hne.
      assert (Hd : n / 16 < 16 ^ N.of_nat fuel).
      { apply N.Div0.div_lt_upper_bound.
        rewrite Nat2N.inj_succ, N.pow_succ_r' in Hn. exact Hn. }
      destruct (IH _ Hd) as (Hall & Hval & Hlen).
      destruct (hex_char_ok (n mod 16)) as [Hc Hv];
        [apply N.mod_upper_bound; lia|].
      split; [|split].
      * rewrite all_chars_app, Hall. simpl. rewrite Hc. reflexivity.
      * unfold hex_value in *. rewrite hex_value_from_app, Hval. simpl.
        rewrite Hv. symmetry. apply N.div_mod. lia.
      * intros k Hk. rewrite str_length_app. simpl.
        destruct k as [|k].
        { simpl in Hk. lia. }
        assert (n / 16 < 16 ^ N.of_nat k).
        { apply N.Div0.div_lt_upper_bound.
          rewrite Nat2N.inj_succ, N.pow_succ_r' in Hk. exact Hk. }
        specialize (Hlen k H). lia.
Qed.

Lemma hex_ok (n : N) :
  all_chars is_lower_hex (Py.hex n) = true /\
  hex_value (Py.hex n) = n /\
  (forall k : nat, n < 16 ^ N.of_nat (S k) -> (String.length (Py.hex n) <= S k)%nat).
Proof.
  unfold Py.hex. destruct (N.eqb_spec n 0) as [->|Hne].
  - repeat split. intros k _. simpl. lia.
  - assert (Hf : n < 16 ^ N.of_nat (N.to_nat (N.size n))).
    { rewrite N2Nat.id. eapply N.lt_le_trans; [apply N.size_gt|].
      apply N.pow_le_mono_l. lia. }
    destruct (hex_go_ok _ _ Hf) as (Hall & Hval & Hlen).
    repeat split; auto.
Qed.

Lemma zeros_ok (k : nat) :
  all_chars is_lower_hex (Py.zeros k) = true /\
  String.length (Py.zeros k) = k /\
  forall s, hex_value (Py.zeros k ++ s)%string = hex_value s.
Proof.
  induction k as [|k (Hall & Hlen & Hval)]; [repeat split|].
  simpl. rewrite Hall, Hlen. repeat split.
  intros s. rewrite str_app_cons. unfold hex_value in *. simpl. apply Hval.
Qed.

(** The identifier of a 32-bit value: eight lowercase hexadecimal digits
    that denote it. *)
Lemma format_08x_ok (n : N) :
  n < 2 ^ 32 ->
  String.length (Py.format_08x n) = 8%nat /\
  all_chars is_lower_hex (Py.format_08x n) = true /\
  hex_value (Py.format_08x n) = n.
Proof.
  intros Hn. unfold Py.format_08x, Py.zfill.
  destruct (hex_ok n) as (Hall & Hval & Hlen).
  specialize (Hlen 7%nat Hn).
  destruct (zeros_ok (8 - String.length (Py.hex n))) as (Zall & Zlen & Zval).
  split; [|split].
  - rewrite str_length_app, Zlen. lia.
  - rewrite all_chars_app, Zall, Hall. reflexivity.
  - rewrite Zval. exact Hval.
Qed.

Lemma hex_value_from_bound (acc : N) (s : string) :
  all_chars is_lower_hex s = true ->
  16 ^ N.of_nat (String.length s) * acc <= hex_value_from acc s
    < 16 ^ N.of_nat (String.length s) * (acc + 1).
Proof.
  revert acc. induction s as [|c s IH]; intros acc Hall.
  - simpl. lia.
  - simpl in Hall. apply andb_true_iff in Hall as [Hc Hall].
    destruct (hex_digit_value_ok c Hc) as [Hv _].
    specialize (IH (16 * acc + hex_digit_value c) Hall).
    cbn [String.length hex_value_from].
    rewrite Nat2N.inj_succ, N.pow_succ_r'. nia.
Qed.

(** Strings of lowercase hexadecimal digits of one length that denote the
    same number are the same string. *)
Lemma hex_value_from_inj (s1 s2 : string) (a1 a2 : N) :
  String.length s1 = String.length s2 ->
  all_chars is_lower_hex s1 = true ->
  all_chars is_lower_hex s2 = true ->
  hex_value_from a1 s1 = hex_value_from a2 s2 ->
  a1 = a2 /\ s1 = s2.
Proof.
  revert s2 a1 a2. induction s1 as [|c1 s1 IH]; intros [|c2 s2] a1 a2 Hlen H1 H2 Hv;
    try discriminate Hlen.
  - simpl in Hv. auto.
  - simpl in *. apply andb_true_iff in H1 as [Hc1 H1].
    apply andb_true_iff in H2 as [Hc2 H2].
    injection Hlen as Hlen.
    destruct (IH _ _ _ Hlen H1 H2 Hv) as [Ha ->].
    destruct (hex_digit_value_ok c1 Hc1) as [Hb1 He1].
    destruct (hex_digit_value_ok c2 Hc2) as [Hb2 He2].
    assert (a1 = a2 /\ hex_digit_value c1 = hex_digit_value c2) as [-> Hd] by lia.
    split; [reflexivity|]. f_equal. rewrite <- He1, <- He2, Hd. reflexivity.
Qed.

End Hex.

Lemma get_id_eq (g : Py.rng) :
  get_id g = (nth_id g 0, Py.mkRng (Py.entropy g) (S (Py.used g))).
Proof.
  unfold get_id, Py.randrange, nth_id.
  rewrite Nat.add_0_r, N.add_0_l, N.sub_0_r. reflexivity.
Qed.

Lemma draws_nil (g : Py.rng) : draws_in_order g [] g.
Proof. repeat split. simpl. lia. Qed.

Lemma draws_app (g g1 g2 : Py.rng) (l1 l2 : list Note.t) :
  draws_in_order g l1 g1 -> draws_in_order g1 l2 g2 ->
  draws_in_order g (l1 ++ l2) g2.
Proof.
  intros (H1 & E1 & U1) (H2 & E2 & U2). split; [|split].
  - rewrite map_app, length_app, seq_app, map_app, H1, H2. f_equal.
    replace (seq (0 + length l1) (length l2))
      with (Nat.add (length l1) <$> seq 0 (length l2))
      by (rewrite fmap_add_seq; f_equal; lia).
    rewrite <- list_fmap_compose.
    apply map_ext. intros i. unfold nth_id, compose. rewrite E1, U1.
    rewrite Nat.add_assoc. reflexivity.
  - congruence.
  - rewrite length_app. lia.
Qed.

Lemma draws_one (g : Py.rng) (n : Note.t) :
  Note.id n = fst (get_id g) -> draws_in_order g [n] (snd (get_id g)).
Proof.
  intros H. rewrite get_id_eq in *. simpl in *. repeat split.
  - simpl. rewrite H. reflexivity.
  - simpl. lia.
Qed.

Lemma variants_loop_draws (fgu_entry : Element) (time : Time)
    (pt prt author : string) (variants : list bool) (g : Py.rng) :
  draws_in_order g
    (fst (fst (variants_loop fgu_entry time pt prt author variants g)))
    (snd (variants_loop fgu_entry time pt prt author variants g)).
Proof.
  revert g. induction variants as [|is_public rest IH]; intros g;
    [apply draws_nil|].
  rewrite variants_loop_cons.
  destruct (find fgu_entry _) as [log|]; [|apply draws_nil].
  destruct (negb _); [apply IH|].
  pose proof (draws_one g) as Hone.
  destruct (get_id g) as [id g1]. specialize (IH g1).
  destruct (variants_loop fgu_entry time pt prt author rest g1) as [[notes e] g2].
  cbn [fst snd] in *.
  apply (draws_app g g1 g2 [_] notes); [|exact IH].
  apply Hone. reflexivity.
Qed.

Lemma get_fvtt_entries_draws (fgu_entry : Element) (pt prt author : string)
    (g : Py.rng) :
  draws_in_order g
    (fst (fst (get_fvtt_entries fgu_entry pt prt author g)))
    (snd (get_fvtt_entries fgu_entry pt prt author g)).
Proof.
  unfold get_fvtt_entries. destruct (read_time fgu_entry); [|apply draws_nil].
  apply variants_loop_draws.
Qed.

Lemma convert_all_draws (pt prt author : string) (logs : list Element)
    (g : Py.rng) :
  draws_in_order g
    (fst (fst (convert_all pt prt author logs g)))
    (snd (convert_all pt prt author logs g)).
Proof.
  revert g. induction logs as [|fgu_entry rest IH]; intros g; [apply draws_nil|].
  cbn [convert_all].
  pose proof (get_fvtt_entries_draws fgu_entry pt prt author g) as H1.
  destruct (get_fvtt_entries fgu_entry pt prt author g) as [[notes e] g1].
  cbn [fst snd] in H1. destruct e as [e|]; [exact H1|].
  specialize (IH g1).
  destruct (convert_all pt prt author rest g1) as [[notes' e'] g2].
  cbn [fst snd] in *. eapply draws_app; eassumption.
Qed.

Lemma nth_id_ok (g : Py.rng) (i : nat) :
  String.length (nth_id g i) = 8%nat /\
  all_chars is_lower_hex (nth_id g i) = true.
Proof.
  unfold nth_id.
  destruct (format_08x_ok (Py.entropy g (Py.used g + i)%nat mod 2 ^ 32)%N)
    as (H1 & H2 & _); [apply N.mod_upper_bound; lia|].
  auto.
Qed.

(** C5: the identifier of a note is a string of exactly eight lowercase
    hexadecimal digits.  It is the format of a value below 2^32 that
    [get_id] draws for this note alone; the strings of eight lowercase
    hexadecimal digits are exactly the formats of the values below 2^32,
    each the format of one value only; and the notes of a run take their
    identifiers from successive draws, in the order of the notes. *)
Theorem get_id_eight_lowercase_hex_digits :
  forall g : Py.rng,
    (String.length (fst (get_id g)) = 8%nat /\
     all_chars is_lower_hex (fst (get_id g)) = true) /\
    (exists n : N,
       (n < 2 ^ 32)%N /\
       n = (Py.entropy g (Py.used g) mod 2 ^ 32)%N /\
       get_id g = (Py.format_08x n, Py.mkRng (Py.entropy g) (S (Py.used g))) /\
       hex_value (fst (get_id g)) = n) /\
    (forall s : string,
       String.length s = 8%nat -> all_chars is_lower_hex s = true ->
       exists n : N, (n < 2 ^ 32)%N /\ Py.format_08x n = s /\
         forall n' : N, (n' < 2 ^ 32)%N -> Py.format_08x n' = s -> n' = n) /\
    (forall (public_title private_title author : string)
            (fgu_db_logs : list Element),
       Forall (fun n : Note.t =>
                 String.length (Note.id n) = 8%nat /\
                 all_chars is_lower_hex (Note.id n) = true)
              (fst (fst (convert_all public_title private_title author
                           fgu_db_logs g))) /\
       map Note.id
         (fst (fst (convert_all public_title private_title author fgu_db_logs g)))
       = map (nth_id g)
           (seq 0 (length (fst (fst (convert_all public_title private_title
                                       author fgu_db_logs g)))))).
Proof.
  intros g. split; [|split; [|split]].
  - rewrite get_id_eq. apply nth_id_ok.
  - exists (Py.entropy g (Py.used g) mod 2 ^ 32)%N.
    assert (Hlt : (Py.entropy g (Py.used g) mod 2 ^ 32 < 2 ^ 32)%N)
      by (apply N.mod_upper_bound; lia).
    split; [exact Hlt|]. split; [reflexivity|].
    rewrite get_id_eq. unfold nth_id. rewrite Nat.add_0_r.
    split; [reflexivity|]. apply format_08x_ok, Hlt.
  - intros s Hlen Hall.
    destruct (hex_value_from_bound 0 s Hall) as [_ Hb].
    rewrite Hlen in Hb.
    assert (Hlt : (hex_value s < 2 ^ 32)%N).
    { unfold hex_value. change (2 ^ 32)%N with (16 ^ N.of_nat 8 * (0 + 1))%N.
      exact Hb. }
    destruct (format_08x_ok _ Hlt) as (Flen & Fall & Fval).
    assert (Heq : Py.format_08x (hex_value s) = s).
    { eapply hex_value_from_inj; [congruence|exact Fall|exact Hall|exact Fval]. }
    exists (hex_value s). split; [exact Hlt|]. split; [exact Heq|].
    intros n' Hn' <-. symmetry. apply format_08x_ok, Hn'.
  - intros pt prt author logs.
    destruct (convert_all_draws pt prt author logs g) as (Hids & _ & _).
    split; [|exact Hids].
    apply Forall_forall. intros n Hin. apply list_elem_of_In in Hin.
    apply (in_map Note.id) in Hin. rewrite Hids in Hin.
    apply in_map_iff in Hin as (i & <- & _). apply nth_id_ok.
Qed.

(** ** Two runs *)

Lemma make_note_same_but_id (time : Time) (pt prt author : string)
    (is_public : bool) (id1 id2 content : string) :
  same_but_id (make_note time pt prt author is_public id1 content)
              (make_note time pt prt author is_public id2 content).
Proof. unfold same_but_id. cbn. repeat split. Qed.

Lemma variants_loop_same_but_id (fgu_entry : Element) (time : Time)
    (pt prt author : string) (variants : list bool) (g1 g2 : Py.rng) :
  Forall2 same_but_id
    (fst (fst (variants_loop fgu_entry time pt prt author variants g1)))
    (fst (fst (variants_loop fgu_entry time pt prt author variants g2))) /\
  snd (fst (variants_loop fgu_entry time pt prt author variants g1)) =
  snd (fst (variants_loop fgu_entry time pt prt author variants g2)).
Proof.
  revert g1 g2. induction variants as [|is_public rest IH]; intros g1 g2.
  - split; [constructor|reflexivity].
  - rewrite !variants_loop_cons.
    destruct (find fgu_entry _) as [log|]; [|split; [constructor|reflexivity]].
    destruct (negb _); [apply IH|].
    destruct (get_id g1) as [id1 g1'], (get_id g2) as [id2 g2'].
    specialize (IH g1' g2').
    destruct (variants_loop fgu_entry time pt prt author rest g1') as [[n1 e1] h1].
    destruct (variants_loop fgu_entry time pt prt author rest g2') as [[n2 e2] h2].
    cbn [fst snd] in *. destruct IH as [IH1 IH2].
    split; [|exact IH2].
    constructor; [apply make_note_same_but_id|exact IH1].
Qed.

Lemma get_fvtt_entries_same_but_id (fgu_entry : Element)
    (pt prt author : string) (g1 g2 : Py.rng) :
  Forall2 same_but_id
    (fst (fst (get_fvtt_entries fgu_entry pt prt author g1)))
    (fst (fst (get_fvtt_entries fgu_entry pt prt author g2))) /\
  snd (fst (get_fvtt_entries fgu_entry pt prt author g1)) =
  snd (fst (get_fvtt_entries fgu_entry pt prt author g2)).
Proof.
  unfold get_fvtt_entries.
  destruct (read_time fgu_entry); [|split; [constructor|reflexivity]].
  apply variants_loop_same_but_id.
Qed.

(** C8: two runs of the conversion over the same entries, with the same
    titles and author, whatever their random generators, end in the same
    way and produce as many notes, which agree pairwise on every key but
    [id]. *)
Theorem convert_all_same_but_id :
  forall (public_title private_title author : string)
         (fgu_db_logs : list Element) (g1 g2 : Py.rng),
    length (fst (fst (convert_all public_title private_title author
                        fgu_db_logs g1))) =
    length (fst (fst (convert_all public_title private_title author
                        fgu_db_logs g2))) /\
    Forall2 same_but_id
      (fst (fst (convert_all public_title private_title author fgu_db_logs g1)))
      (fst (fst (convert_all public_title private_title author fgu_db_logs g2))) /\
    snd (fst (convert_all public_title private_title author fgu_db_logs g1)) =
    snd (fst (convert_all public_title private_title author fgu_db_logs g2)).
Proof.
  intros pt prt author logs.
  assert (H : forall g1 g2,
    Forall2 same_but_id
      (fst (fst (convert_all pt prt author logs g1)))
      (fst (fst (convert_all pt prt author logs g2))) /\
    snd (fst (convert_all pt prt author logs g1)) =
    snd (fst (convert_all pt prt author logs g2))).
  { induction logs as [|fgu_entry rest IH]; intros g1 g2.
    - split; [constructor|reflexivity].
    - cbn [convert_all].
      pose proof (get_fvtt_entries_same_but_id fgu_entry pt prt author g1 g2)
        as [H1 H2].
      destruct (get_fvtt_entries fgu_entry pt prt author g1) as [[n1 e1] h1].
      destruct (get_fvtt_entries fgu_entry pt prt author g2) as [[n2 e2] h2].
      cbn [fst snd] in H1, H2. subst e2.
      destruct e1 as [e|]; [split; [exact H1|reflexivity]|].
      specialize (IH h1 h2).
      destruct (convert_all pt prt author rest h1) as [[n1' e1'] k1].
      destruct (convert_all pt prt author rest h2) as [[n2' e2'] k2].
      cbn [fst snd] in *. destruct IH as [IH1 IH2].
      split; [apply Forall2_app; assumption|exact IH2]. }
  intros g1 g2. destruct (H g1 g2) as [HF He].
  split; [eapply Forall2_length; exact HF|]. split; assumption.
Qed.

(** ** Malformed time fields *)

Lemma all_chars_lstrip_by (p q : ascii -> bool) (s : string) :
  all_chars p s = true -> all_chars p (Py.lstrip_by q s) = true.
Proof.
  induction s as [|c s IH]; [reflexivity|].
  intros H. simpl. destruct (q c); [|exact H].
  simpl in H. apply andb_true_iff in H as [_ H]. apply IH, H.
Qed.

Lemma all_chars_rstrip_by (p q : ascii -> bool) (s : string) :
  all_chars p s = true -> all_chars p (Py.rstrip_by q s) = true.
Proof.
  induction s as [|c s IH]; [reflexivity|].
  intros H. simpl in H. apply andb_true_iff in H as [Hc H].
  specialize (IH H). simpl.
  destruct (Py.rstrip_by q s) as [|d r].
  - destruct (q c); [reflexivity|]. simpl. rewrite Hc. reflexivity.
  - cbn [all_chars] in *. rewrite Hc. exact IH.
Qed.















(** ** The backup *)

Lemma backup_name_ne (name : string) (index : nat) :
  backup_name name index <> name.
Proof.
  unfold backup_name. intros H.
  apply (f_equal String.length) in H.
  rewrite str_length_app, str_length_app in H. simpl in H. lia.
Qed.

Lemma backup_name_inj (name : string) : Inj (=) (=) (backup_name name).
Proof.
  intros i j H. unfold backup_name in H.
  apply (inj (String.app name)) in H.
  apply (inj (String.app ".bak.")) in H.
  apply (inj pretty) in H. exact H.
Qed.

(** The index the loop stops at is at or after the start, and every name
    it went over is in use. *)
Lemma backup_index_from_least (fuel : nat) (fs : gmap string string)
    (name : string) (index : nat) :
  (index <= backup_index_from fuel fs name index)%nat /\
  forall j, (index <= j < backup_index_from fuel fs name index)%nat ->
            is_Some (fs !! backup_name name j).
Proof.
  revert index. induction fuel as [|fuel IH]; intros index; simpl.
  - split; [lia|]. intros j Hj. lia.
  - case_bool_decide as Hused.
    + destruct (IH (S index)) as [Hle Hall]. split; [lia|].
      intros j Hj. destruct (decide (j = index)) as [->|Hne]; [exact Hused|].
      apply Hall. lia.
    + split; [lia|]. intros j Hj. lia.
Qed.

(** With a free name within the reach of the fuel, the loop stops at a
    free name. *)
Lemma backup_index_from_free (fuel : nat) (fs : gmap string string)
    (name : string) (index k : nat) :
  (index <= k < index + fuel)%nat ->
  fs !! backup_name name k = None ->
  fs !! backup_name name (backup_index_from fuel fs name index) = None.
Proof.
  revert index. induction fuel as [|fuel IH]; intros index Hk Hfree; [lia|].
  simpl. case_bool_decide as Hused.
  - apply IH; [|exact Hfree].
    destruct (decide (k = index)) as [->|Hne]; [|lia].
    rewrite Hfree in Hused. destruct Hused as [? Hused]. discriminate Hused.
  - apply eq_None_not_Some. exact Hused.
Qed.

(** Among the first [size fs + 1] backup names one is free. *)
Lemma backup_name_free (fs : gmap string string) (name : string) :
  exists k, (k < S (size fs))%nat /\ fs !! backup_name name k = None.
Proof.
  set (n := size fs).
  destruct (decide (Forall (fun k => is_Some (fs !! backup_name name k))
                           (seq 0 (S n)))) as [Hall|Hnot].
  - exfalso.
    assert (Hsub : list_to_set (C := gset string)
                     (backup_name name <$> seq 0 (S n)) ⊆ dom fs).
    { intros x Hx. apply elem_of_list_to_set, list_elem_of_fmap in Hx
        as (k & -> & Hk).
      apply elem_of_dom. rewrite Forall_forall in Hall. apply Hall, Hk. }
    apply subseteq_size in Hsub.
    rewrite size_list_to_set, length_fmap, length_seq, size_dom in Hsub.
    + subst n. lia.
    + apply (NoDup_fmap_2 _). apply NoDup_seq.
  - apply not_Forall_Exists in Hnot; [|intros k; apply _].
    apply Exists_exists in Hnot as (k & Hk & Hfree).
    apply elem_of_seq in Hk. exists k. split; [lia|].
    apply eq_None_not_Some. exact Hfree.
Qed.

(** The backup goes to the first backup name that is not in use: the fuel
    of [backup_index] never runs out. *)
Lemma backup_index_spec (fs : gmap string string) (name : string) :
  fs !! backup_name name (backup_index fs name) = None /\
  forall j, (j < backup_index fs name)%nat -> is_Some (fs !! backup_name name j).
Proof.
  unfold backup_index. split.
  - destruct (backup_name_free fs name) as (k & Hk & Hfree).
    apply (backup_index_from_free _ _ _ _ k); [lia|exact Hfree].
  - intros j Hj. apply (backup_index_from_least (S (size fs)) fs name 0). lia.
Qed.

(** ** The main program *)

Section MainFacts.

Variable parse : string -> Py.result Element.
Variable loads : string -> Py.result Json.value.
Variable decode : string -> option string.
Variable encode : string -> string.

Lemma with_backup_lookup (fs : gmap string string) (name text : string) :
  fs !! name = Some text ->
  fs !! backup_name name (backup_index fs name) = None /\
  with_backup fs name text !! backup_name name (backup_index fs name) = Some text /\
  with_backup fs name text !! name = Some text /\
  forall other, other <> backup_name name (backup_index fs name) ->
                with_backup fs name text !! other = fs !! other.
Proof.
  intros H. unfold with_backup. split; [apply backup_index_spec|].
  split; [apply lookup_insert_eq|]. split.
  - rewrite lookup_insert_ne; [exact H|apply backup_name_ne].
  - intros other Hne. apply lookup_insert_ne. congruence.
Qed.

(** [main] up to the conversion of the entries. *)
Lemma main_converted (args : Args) (fs : gmap string string) (g g' : Py.rng)
    (fgu_data fvtt_data : string) (fgu_db_root log : Element)
    (out : yielded Note.t) :
  fs !! arg_fgu args = Some fgu_data ->
  fs !! arg_fvtt args = Some fvtt_data ->
  parse fgu_data = Py.Return fgu_db_root ->
  find_calendar_log fgu_db_root = Some log ->
  convert_all (arg_public_title args) (arg_private_title args) (arg_author args)
    (log_entries log) g = (out, g') ->
  main parse loads decode encode args (fs, g) =
  let fs1 := with_backup fs (arg_fvtt args) fvtt_data in
  match out with
  | (_, Some e) => (fs1, e)
  | (fvtt_entries, None) =>
      match fvtt_entries !! 50%nat with
      | None => (fs1, Py.IndexError)
      | Some _ =>
          match decode fvtt_data with
          | None => (fs1, Py.UnicodeDecodeError)
          | Some fvtt_text =>
          match find_settings loads (File.readlines fvtt_text) 0 with
          | Py.Raise e => (fs1, e)
          | Py.Return None =>
              (fs1, Py.SystemExit
                      (Py.ExitMessage ("Failed to find settings: " ++ CAL_SETTINGS)))
          | Py.Return (Some (line_number, payload)) =>
              match Json.setitem payload "value"
                      (Json.Str (Json.dumps (Json.List (map note_json fvtt_entries))))
              with
              | Py.Raise e => (fs1, e)
              | Py.Return payload' =>
                  (<[arg_fvtt args :=
                       File.overwrite encode fvtt_data
                         (<[line_number :=
                              Json.dumps payload' ++ String "010" ""]>
                            (File.readlines fvtt_text))]> fs1,
                   Py.SystemExit Py.ExitNone)
              end
          end
          end
      end
  end.
Proof.
  intros Hfgu Hfvtt Hparse Hlog Hconv.
  unfold main, log_entries in *. rewrite Hfgu, Hfvtt, Hparse, Hlog, Hconv.
  destruct out as [notes [e|]]; reflexivity.
Qed.


End MainFacts.

(** C9: when the source converts to 50 notes or fewer, the main program
    ends with [IndexError], raised by the print of the note number 50.  At
    that point the backup exists, under a name that was free, and nothing
    else has changed: the settings file holds what it held. *)
Theorem main_index_error_up_to_50_notes :
  forall (parse : string -> Py.result Element)
         (loads : string -> Py.result Json.value)
         (decode : string -> option string) (encode : string -> string)
         (args : Args) (fs : gmap string string) (g g' : Py.rng)
         (fgu_text fvtt_text : string) (fgu_db_root log : Element)
         (fvtt_entries : list Note.t),
    fs !! arg_fgu args = Some fgu_text ->
    fs !! arg_fvtt args = Some fvtt_text ->
    parse fgu_text = Py.Return fgu_db_root ->
    find_calendar_log fgu_db_root = Some log ->
    convert_all (arg_public_title args) (arg_private_title args)
      (arg_author args) (log_entries log) g = ((fvtt_entries, None), g') ->
    (length fvtt_entries <= 50)%nat ->
    let backup := backup_name (arg_fvtt args) (backup_index fs (arg_fvtt args)) in
    main parse loads decode encode args (fs, g)
      = (<[backup := fvtt_text]> fs, Py.IndexError) /\
    Py.exit_status Py.IndexError = 1%Z /\
    fs !! backup = None /\
    (<[backup := fvtt_text]> fs) !! backup = Some fvtt_text /\
    (<[backup := fvtt_text]> fs) !! arg_fvtt args = Some fvtt_text /\
    (forall other, other <> backup ->
                   (<[backup := fvtt_text]> fs) !! other = fs !! other).
Proof.
  intros parse loads decode encode args fs g g' fgu_text fvtt_text root log
    notes Hfgu Hfvtt Hparse Hlog Hconv Hlen backup.
  rewrite (main_converted parse loads decode encode _ _ _ _ _ _ _ _ _
             Hfgu Hfvtt Hparse Hlog Hconv).
  cbn zeta. rewrite (lookup_ge_None_2 notes 50) by lia.
  split; [reflexivity|]. split; [reflexivity|].
  apply (with_backup_lookup fs (arg_fvtt args) fvtt_text Hfvtt).
Qed.



(** The settings file changes in no run but one that reaches [exit()]; there
    it holds the bytes of the new lines written over what it held. *)
Lemma main_settings_untouched_unless_written
    (parse : string -> Py.result Element)
    (loads : string -> Py.result Json.value)
    (decode : string -> option string) (encode : string -> string)
    (args : Args) (fs : gmap string string) (g : Py.rng) (fvtt_data : string) :
  fs !! arg_fvtt args = Some fvtt_data ->
  fst (main parse loads decode encode args (fs, g)) !! arg_fvtt args
    = Some fvtt_data \/
  exists lines,
    fst (main parse loads decode encode args (fs, g)) !! arg_fvtt args
      = Some (File.overwrite encode fvtt_data lines) /\
    snd (main parse loads decode encode args (fs, g)) = Py.SystemExit Py.ExitNone.
Proof.
  intros Hfvtt.
  pose proof (with_backup_lookup fs _ _ Hfvtt) as (_ & _ & Hsame & _).
  unfold main. rewrite Hfvtt.
  destruct (fs !! arg_fgu args) as [fgu_data|]; [|left; exact Hfvtt].
  destruct (parse fgu_data) as [root|e]; [|left; exact Hsame].
  destruct (find_calendar_log root) as [log|]; [|left; exact Hsame].
  destruct (convert_all _ _ _ _ g) as [[notes [e|]] g']; [left; exact Hsame|].
  destruct (notes !! 50%nat); [|left; exact Hsame].
  destruct (decode fvtt_data) as [fvtt_text|]; [|left; exact Hsame].
  destruct (find_settings loads _ 0) as [[[ln payload]|]|e];
    [|left; exact Hsame..].
  destruct (Json.setitem payload _ _) as [payload'|e]; [|left; exact Hsame].
  right. eexists. split; [apply lookup_insert_eq|reflexivity].
Qed.

(** Writing a text that is shorter than what the file holds leaves the end
    of the file as it was. *)
Lemma overwrite_shorter (encode : string -> string) (old : string)
    (lines : list string) :
  let new := Py.join (map encode lines) in
  (String.length new < String.length old)%nat ->
  File.overwrite encode old lines = new ++ File.drop (String.length new) old /\
  File.drop (String.length new) old <> "".
Proof.
  intros new Hlt. split; [reflexivity|].
  generalize dependent (String.length new). intros n. revert old.
  induction n as [|n IH]; intros [|c old] H; simpl in *; try lia.
  - discriminate.
  - apply IH. lia.
Qed.

(** ** Sample runs *)

Section SampleRuns.

Import Sample.

Lemma by_decision (P : Prop) `{Decision P} : bool_decide P = true -> P.
Proof. apply bool_decide_eq_true_1. Qed.

Lemma files_fgu (root : Element) (payloads : list Json.value) :
  files root payloads !! arg_fgu args = Some (tostring root).
Proof. apply lookup_insert_eq. Qed.

Lemma files_fvtt (root : Element) (payloads : list Json.value) :
  files root payloads !! arg_fvtt args = Some (settings_text payloads).
Proof.
  unfold files. rewrite lookup_insert_ne by discriminate.
  apply lookup_insert_eq.
Qed.

Lemma parse_of_tostring (root : Element) :
  parse_of root (tostring root) = Py.Return root.
Proof. unfold parse_of. rewrite String.eqb_refl. reflexivity. Qed.

Lemma files_backup (root : Element) (payloads : list Json.value) :
  backup_name (arg_fvtt args) (backup_index (files root payloads) (arg_fvtt args))
  = "settings.db.bak.1".
Proof.
  assert (H : backup_index (files root payloads) (arg_fvtt args) = 1%nat).
  { unfold backup_index, files.
    rewrite !map_size_insert_None, map_size_empty.
    - cbn [backup_index_from].
      rewrite bool_decide_eq_true_2.
      + rewrite bool_decide_eq_false_2; [reflexivity|].
        rewrite !lookup_insert_ne by (vm_compute; discriminate).
        rewrite lookup_empty. apply is_Some_None.
      + rewrite !lookup_insert_ne by (vm_compute; discriminate).
        rewrite lookup_insert_eq. eexists. reflexivity.
    - apply lookup_empty.
    - rewrite lookup_insert_ne by discriminate. apply lookup_empty.
    - rewrite !lookup_insert_ne by discriminate. apply lookup_empty. }
  rewrite H. vm_compute. reflexivity.
Qed.

Lemma convert_large :
  convert_all (arg_public_title args) (arg_private_title args) (arg_author args)
    (log_entries (log (replicate 51 entry_public))) rng0
  = ((notes_large, None), rng_large).
Proof. vm_compute. reflexivity. Qed.

Lemma convert_small :
  convert_all (arg_public_title args) (arg_private_title args) (arg_author args)
    (log_entries (log [entry_both])) rng0
  = ((notes_small, None), rng_small).
Proof. vm_compute. reflexivity. Qed.

End SampleRuns.

(** ** Instances of the theorems *)

Lemma get_fvtt_entries_both_blocks_witness :
  int_field Sample.entry_both "year" = Py.Return 4721%Z /\
  int_field Sample.entry_both "month" = Py.Return 1%Z /\
  int_field Sample.entry_both "day" = Py.Return 9%Z /\
  textify (Sample.block "logentry"
             [Sample.p (Some "Returned to Elesomare.") None]) <> "" /\
  textify (Sample.block "gmlogentry"
             [Sample.p (Some "Left Karina in Sharvaros' company.") None]) <> "" /\
  exists (n1 n2 : Note.t) (g' : Py.rng),
    get_fvtt_entries Sample.entry_both "Journal" "Notes" "zph8yxjDa80f9VnL"
      Sample.rng0 = (([n1; n2], None), g') /\
    Note.priority n1 = 0%Z /\ Note.priority n2 = 1%Z /\
    Note.endDate n1 = Note.endDate n2.
Proof.
  assert (T1 : textify (Sample.block "logentry"
                 [Sample.p (Some "Returned to Elesomare.") None]) <> "")
    by (vm_compute; discriminate).
  assert (T2 : textify (Sample.block "gmlogentry"
                 [Sample.p (Some "Left Karina in Sharvaros' company.") None]) <> "")
    by (vm_compute; discriminate).
  do 3 (split; [reflexivity|]). split; [exact T1|]. split; [exact T2|].
  destruct (get_fvtt_entries_both_blocks Sample.entry_both
              "Journal" "Notes" "zph8yxjDa80f9VnL" Sample.rng0 4721 1 9 _ _
              eq_refl eq_refl eq_refl eq_refl eq_refl T1 T2)
    as (n1 & n2 & g' & H & (_ & _ & _ & P1) & (_ & _ & _ & P2) & _ & _ & _ & _ & E).
  exists n1, n2, g'. auto.
Defined.

Lemma get_fvtt_entries_no_empty_note_witness :
  find Sample.entry_empty "logentry"
  = Some (Sample.block "logentry" [Sample.p None None]) /\
  textify (Sample.block "logentry" [Sample.p None None]) = "" /\
  textify (Sample.block "gmlogentry" [Sample.p None None]) = "" /\
  get_fvtt_entries Sample.entry_empty "Journal" "Notes" "zph8yxjDa80f9VnL"
    Sample.rng0 = (([], None), Sample.rng0).
Proof.
  do 3 (split; [reflexivity|]).
  exact (proj1 (get_fvtt_entries_no_empty_note Sample.entry_empty
                  "Journal" "Notes" "zph8yxjDa80f9VnL" Sample.rng0)
           4721%Z 1%Z 10%Z _ _
           eq_refl eq_refl eq_refl eq_refl eq_refl eq_refl eq_refl).
Defined.

Lemma textify_skips_child_iff_text_empty_witness :
  text Sample.p_nested = None /\
  text Sample.p_blank = Some " " /\
  textify (Sample.block "logentry"
             ([Sample.p (Some "a") None] ++ Sample.p_nested
                :: [Sample.p (Some "b") None]))
  = textify (Sample.block "logentry"
               ([Sample.p (Some "a") None] ++ [Sample.p (Some "b") None])) /\
  textify (Sample.block "logentry" ([] ++ Sample.p_blank :: []))
  = "<p> <b>bold</b></p>".
Proof.
  destruct (textify_skips_child_iff_text_empty "logentry"
              [("type", "formattedtext")] None None
              [Sample.p (Some "a") None] [Sample.p (Some "b") None]
              Sample.p_nested) as (_ & Hskip & _).
  destruct (textify_skips_child_iff_text_empty "logentry"
              [("type", "formattedtext")] None None [] []
              Sample.p_blank) as (_ & _ & Hkeep & _).
  split; [reflexivity|]. split; [reflexivity|].
  split; [exact (Hskip (or_introl eq_refl))|].
  refine (proj2 (Hkeep _)). intros [H|H]; discriminate H.
Defined.

Lemma textify_serializes_tail_witness :
  has_text Sample.p_tail = true /\
  tail Sample.p_tail = Some (" Then left." ++ String "010" "  ") /\
  textify Sample.block_tail = "<p>Returned to Elesomare.</p> Then left.".
Proof.
  split; [reflexivity|]. split; [reflexivity|].
  exact (textify_serializes_tail "logentry" [("type", "formattedtext")] None None
           [Sample.p None None] [] Sample.p_tail _ eq_refl eq_refl).
Defined.



Lemma main_index_error_up_to_50_notes_witness :
  convert_all "Journal" "Notes" "zph8yxjDa80f9VnL"
    (log_entries (Sample.log [Sample.entry_both])) Sample.rng0
  = ((Sample.notes_small, None), Sample.rng_small) /\
  (length Sample.notes_small <= 50)%nat /\
  main (Sample.parse_of Sample.db_small) (Sample.loads_of Sample.settings_long)
    Codec.decode_latin_1 Codec.encode_latin_1
    Sample.args (Sample.files Sample.db_small Sample.settings_long, Sample.rng0)
  = (<["settings.db.bak.1" := Sample.settings_text Sample.settings_long]>
       (Sample.files Sample.db_small Sample.settings_long), Py.IndexError).
Proof.
  assert (Hlen : (length Sample.notes_small <= 50)%nat)
    by (vm_compute; repeat constructor).
  split; [exact convert_small|]. split; [exact Hlen|].
  destruct (main_index_error_up_to_50_notes (Sample.parse_of Sample.db_small)
              (Sample.loads_of Sample.settings_long)
              Codec.decode_latin_1 Codec.encode_latin_1 Sample.args
              (Sample.files Sample.db_small Sample.settings_long)
              Sample.rng0 Sample.rng_small _ _ Sample.db_small
              (Sample.log [Sample.entry_both]) Sample.notes_small
              (files_fgu _ _) (files_fvtt _ _) (parse_of_tostring _) eq_refl
              convert_small Hlen) as (Hrun & _).
  rewrite files_backup in Hrun. exact Hrun.
Defined.



(** The write counts bytes: under UTF-8 a text of 10 characters is 15 bytes
    in the file, and the 11 bytes of new lines that are 11 characters leave
    the last 4 bytes of the file in place. *)
Lemma overwrite_counts_bytes :
  String.length Cases.accented = 10%nat /\
  String.length (Codec.encode_utf_8 Cases.accented) = 15%nat /\
  String.length
    (Py.join (<[0%nat := "xxxxxx" ++ String "010" ""]>
                (File.readlines Cases.accented))) = 11%nat /\
  File.overwrite Codec.encode_utf_8 (Codec.encode_utf_8 Cases.accented)
    (<[0%nat := "xxxxxx" ++ String "010" ""]> (File.readlines Cases.accented))
  = "xxxxxx" ++ String "010" "" ++ "abc" ++ String "010" ""
    ++ "abc" ++ String "010" "".
Proof. repeat split; vm_compute; reflexivity. Qed.

(** C4, on a run: the source converts to 51 notes, and the settings file
    holds calendar notes that take more room than the new ones.  The run
    ends with [exit()], and the settings file then holds the new text
    followed by what the file held beyond the length of the new text: it
    is neither the new text nor what the file held. *)
Theorem main_leaves_stale_text :
  snd (main (Sample.parse_of Sample.db_large)
         (Sample.loads_of Sample.settings_long)
         Codec.decode_latin_1 Codec.encode_latin_1 Sample.args
         (Sample.files Sample.db_large Sample.settings_long, Sample.rng0))
  = Py.SystemExit Py.ExitNone /\
  fst (main (Sample.parse_of Sample.db_large)
         (Sample.loads_of Sample.settings_long)
         Codec.decode_latin_1 Codec.encode_latin_1 Sample.args
         (Sample.files Sample.db_large Sample.settings_long, Sample.rng0))
    !! "settings.db" = Some (Sample.new_text ++ Sample.stale) /\
  Sample.stale <> "" /\
  Sample.new_text ++ Sample.stale <> Sample.new_text /\
  Sample.new_text ++ Sample.stale <> Sample.settings_text Sample.settings_long.
Proof.
  split; [vm_compute; reflexivity|].
  split; [|split; [|split]]; apply (by_decision _); vm_compute; reflexivity.
Qed.

(** * Further properties *)

(** ** One entry *)

Lemma variants_loop_made (fgu_entry : Element) (time : Time)
    (pt prt author : string) (variants : list bool) (g : Py.rng) :
  Forall (fun n => exists is_public id content,
                     n = make_note time pt prt author is_public id content)
         (fst (fst (variants_loop fgu_entry time pt prt author variants g))).
Proof.
  revert g. induction variants as [|is_public rest IH]; intros g;
    [constructor|].
  rewrite variants_loop_cons.
  destruct (find fgu_entry _) as [log|]; [|constructor].
  destruct (negb _); [apply IH|].
  destruct (get_id g) as [id g1]. specialize (IH g1).
  destruct (variants_loop fgu_entry time pt prt author rest g1) as [[notes e] g2].
  cbn [fst] in *. constructor; [|exact IH]. eauto.
Qed.

Lemma read_time_inv (fgu_entry : Element) (time : Time) :
  read_time fgu_entry = Py.Return time ->
  exists y m d,
    int_field fgu_entry "year" = Py.Return y /\
    int_field fgu_entry "month" = Py.Return m /\
    int_field fgu_entry "day" = Py.Return d /\
    time = mkTime y m d 0 0.
Proof.
  unfold read_time.
  destruct (int_field fgu_entry "year") as [y|]; [|discriminate].
  destruct (int_field fgu_entry "month") as [m|]; [|discriminate].
  destruct (int_field fgu_entry "day") as [d|]; [|discriminate].
  intros [= <-]. exists y, m, d. auto.
Qed.

(** X1: an entry whose public block alone renders to a text yields exactly
    one note: the public one, with the public title, priority 0, the text
    of the public block, and the identifier of the first draw. *)
Theorem get_fvtt_entries_public_only :
  forall (fgu_entry : Element) (public_title private_title author : string)
         (g : Py.rng) (y m d : Z) (pub priv : Element),
    int_field fgu_entry "year" = Py.Return y ->
    int_field fgu_entry "month" = Py.Return m ->
    int_field fgu_entry "day" = Py.Return d ->
    find fgu_entry "logentry" = Some pub ->
    find fgu_entry "gmlogentry" = Some priv ->
    textify pub <> "" ->
    textify priv = "" ->
    exists n : Note.t,
      get_fvtt_entries fgu_entry public_title private_title author g =
        (([n], None), snd (get_id g)) /\
      Note.id n = fst (get_id g) /\
      Note.content n = textify pub /\
      Note.playerVisible n = true /\
      Note.title n = public_title /\
      Note.priority n = 0%Z.
Proof.
  intros fgu_entry pt prt author g y m d pub priv Hy Hm Hd Hpub Hpriv Tpub Tpriv.
  unfold get_fvtt_entries. rewrite (read_time_fields _ _ _ _ Hy Hm Hd).
  rewrite variants_loop_cons, Hpub.
  apply truthy_Some in Tpub. rewrite Tpub. cbn [negb].
  destruct (get_id g) as [id1 g1].
  rewrite variants_loop_cons, Hpriv, Tpriv. cbn.
  eexists. split; [reflexivity|]. cbn. repeat split.
Qed.

(** X2: an entry whose private block alone renders to a text yields exactly
    one note: the private one, with the private title and priority 1, and
    with the identifier of the first draw, the public variant having used
    none. *)
Theorem get_fvtt_entries_private_only :
  forall (fgu_entry : Element) (public_title private_title author : string)
         (g : Py.rng) (y m d : Z) (pub priv : Element),
    int_field fgu_entry "year" = Py.Return y ->
    int_field fgu_entry "month" = Py.Return m ->
    int_field fgu_entry "day" = Py.Return d ->
    find fgu_entry "logentry" = Some pub ->
    find fgu_entry "gmlogentry" = Some priv ->
    textify pub = "" ->
    textify priv <> "" ->
    exists n : Note.t,
      get_fvtt_entries fgu_entry public_title private_title author g =
        (([n], None), snd (get_id g)) /\
      Note.id n = fst (get_id g) /\
      Note.content n = textify priv /\
      Note.playerVisible n = false /\
      Note.title n = private_title /\
      Note.priority n = 1%Z.
Proof.
  intros fgu_entry pt prt author g y m d pub priv Hy Hm Hd Hpub Hpriv Tpub Tpriv.
  unfold get_fvtt_entries. rewrite (read_time_fields _ _ _ _ Hy Hm Hd).
  rewrite variants_loop_cons, Hpub, Tpub. cbn [Py.truthy String.eqb negb].
  rewrite variants_loop_cons, Hpriv.
  apply truthy_Some in Tpriv. rewrite Tpriv. cbn [negb].
  destruct (get_id g) as [id1 g1]. cbn.
  eexists. split; [reflexivity|]. cbn. repeat split.
Qed.

(** X3: every note of an entry carries the year, month and day read from
    the entry, hour and minute zero, the author given, no repetition, the
    whole day, no category and no user to remind, an end date that is the
    same day with zero seconds, and the title and the priority of its
    visibility. *)
Theorem get_fvtt_entries_note_fields :
  forall (fgu_entry : Element) (public_title private_title author : string)
         (g : Py.rng),
    Forall
      (fun n : Note.t =>
         exists y m d : Z,
           int_field fgu_entry "year" = Py.Return y /\
           int_field fgu_entry "month" = Py.Return m /\
           int_field fgu_entry "day" = Py.Return d /\
           Note.year n = y /\ Note.month n = m /\ Note.day n = d /\
           Note.hour n = 0%Z /\ Note.minute n = 0%Z /\
           Note.author n = author /\
           Note.repeats n = 0%Z /\ Note.allDay n = true /\
           Note.categories n = [] /\ Note.remindUsers n = [] /\
           Note.endDate n = EndDate.mk 0 y m d 0 0 /\
           Note.title n =
             (if Note.playerVisible n then public_title else private_title) /\
           Note.priority n = (if Note.playerVisible n then 0%Z else 1%Z))
      (fst (fst (get_fvtt_entries fgu_entry public_title private_title author g))).
Proof.
  intros fgu_entry pt prt author g. unfold get_fvtt_entries.
  destruct (read_time fgu_entry) as [time|e] eqn:Ht; [|constructor].
  destruct (read_time_inv _ _ Ht) as (y & m & d & Hy & Hm & Hd & ->).
  eapply Forall_impl; [apply variants_loop_made|].
  intros n (is_public & id & content & ->).
  exists y, m, d. cbn. destruct is_public; repeat split; assumption.
Qed.

(** X4: an entry yields at most two notes, at most one of each visibility,
    and a public note comes before a private one. *)
Theorem get_fvtt_entries_at_most_two :
  forall (fgu_entry : Element) (public_title private_title author : string)
         (g : Py.rng),
    (length (fst (fst (get_fvtt_entries fgu_entry public_title private_title
                         author g))) <= 2)%nat /\
    In (map Note.playerVisible
          (fst (fst (get_fvtt_entries fgu_entry public_title private_title
                       author g))))
       [[]; [true]; [false]; [true; false]].
Proof.
  intros fgu_entry pt prt author g. unfold get_fvtt_entries.
  destruct (read_time fgu_entry) as [time|e]; [|cbn; auto].
  rewrite variants_loop_cons.
  destruct (find fgu_entry "logentry") as [pub|]; [|cbn; auto].
  destruct (negb (Py.truthy (Some (textify pub)))).
  - rewrite variants_loop_cons.
    destruct (find fgu_entry "gmlogentry") as [priv|]; [|cbn; auto].
    destruct (negb _); [cbn; auto|].
    destruct (get_id g) as [id g1]. cbn. auto.
  - destruct (get_id g) as [id g1]. rewrite variants_loop_cons.
    destruct (find fgu_entry "gmlogentry") as [priv|]; [|cbn; auto].
    destruct (negb _); [cbn; auto|].
    destruct (get_id g1) as [id2 g2]. cbn. auto 6.
Qed.

(** X5: an entry whose public block is absent ends with [TypeError]
    without a note, whatever its private block holds; an entry whose
    private block is absent ends with [TypeError] after the note of its
    public block, if that block has text, was yielded. *)
Theorem get_fvtt_entries_missing_block :
  forall (fgu_entry : Element) (public_title private_title author : string)
         (g : Py.rng) (y m d : Z),
    int_field fgu_entry "year" = Py.Return y ->
    int_field fgu_entry "month" = Py.Return m ->
    int_field fgu_entry "day" = Py.Return d ->
    (find fgu_entry "logentry" = None ->
     get_fvtt_entries fgu_entry public_title private_title author g =
       (([], Some Py.TypeError), g)) /\
    (forall pub : Element,
       find fgu_entry "logentry" = Some pub ->
       find fgu_entry "gmlogentry" = None ->
       get_fvtt_entries fgu_entry public_title private_title author g =
         if Py.truthy (Some (textify pub))
         then (([make_note (mkTime y m d 0 0) public_title private_title author
                   true (fst (get_id g)) (textify pub)],
                Some Py.TypeError), snd (get_id g))
         else (([], Some Py.TypeError), g)).
Proof.
  intros fgu_entry pt prt author g y m d Hy Hm Hd.
  unfold get_fvtt_entries. rewrite (read_time_fields _ _ _ _ Hy Hm Hd). split.
  - intros Hpub. rewrite variants_loop_cons, Hpub. reflexivity.
  - intros pub Hpub Hpriv. rewrite variants_loop_cons, Hpub.
    destruct (Py.truthy (Some (textify pub))); cbn [negb].
    + destruct (get_id g) as [id g1].
      rewrite variants_loop_cons, Hpriv. reflexivity.
    + rewrite variants_loop_cons, Hpriv. reflexivity.
Qed.

(** ** The text of a block *)

Lemma str_app_nonempty (s t : string) : s <> "" -> s ++ t <> "".
Proof. destruct s; [congruence|]. rewrite str_app_cons. discriminate. Qed.

Lemma all_chars_join (p : ascii -> bool) (parts : list string) :
  Forall (fun s => all_chars p s = true) parts ->
  all_chars p (Py.join parts) = true.
Proof.
  induction 1 as [|s parts Hs _ IH]; [reflexivity|].
  simpl. rewrite all_chars_app, Hs, IH. reflexivity.
Qed.

Lemma xmlcharrefreplace_char_ascii (c : ascii) :
  all_chars is_ascii
    (if (128 <=? N_of_ascii c)%N
     then "&#" ++ pretty (N_of_ascii c) ++ ";"
     else String c "") = true.
Proof. destruct c as [[] [] [] [] [] [] [] []]; vm_compute; reflexivity. Qed.

Lemma xmlcharrefreplace_ascii (s : string) :
  all_chars is_ascii (xmlcharrefreplace s) = true.
Proof.
  induction s as [|c s IH]; [reflexivity|].
  cbn [xmlcharrefreplace].
  rewrite all_chars_app, xmlcharrefreplace_char_ascii, IH. reflexivity.
Qed.

(** X6: the text of a block is empty exactly when every child of the block
    is without text; one child with text, be it white space, makes the text
    of the block, and so a note, whatever the other children are. *)
Theorem textify_empty_iff :
  forall element : Element,
    textify element = "" <-> Forall no_text (children element).
Proof.
  intros element. unfold textify.
  induction (children element) as [|child rest IH].
  - split; [constructor|reflexivity].
  - rewrite filter_cons. destruct (decide (has_text child)) as [H|H].
    + apply Is_true_true in H. cbn [map Py.join fold_right]. split.
      * intros E. exfalso.
        exact (str_app_nonempty _ _ (strip_tostring_nonempty child) E).
      * intros F. inversion F as [|? ? Hc _]; subst.
        apply truthy_false in Hc. unfold has_text in H. congruence.
    + apply Is_true_false in H. rewrite IH. split.
      * intros F. constructor; [apply truthy_false, H|exact F].
      * intros F. inversion F; assumption.
Qed.

(** X7: the text of a block holds US-ASCII characters only, whatever the
    characters of the source are: the serializer writes every other
    character as a character reference. *)
Theorem textify_ascii :
  forall element : Element, all_chars is_ascii (textify element) = true.
Proof.
  intros element. unfold textify. apply all_chars_join.
  apply Forall_forall. intros s Hs. apply list_elem_of_In, in_map_iff in Hs.
  destruct Hs as (child & <- & _).
  unfold Py.strip, Py.rstrip, Py.lstrip, Py.decode, tostring.
  apply all_chars_rstrip_by, all_chars_lstrip_by, xmlcharrefreplace_ascii.
Qed.

(** ** Several entries *)

(** X8: the conversion of two lists of entries, one after the other: when
    the first list raises, the second is never converted; otherwise the
    notes of the second follow those of the first, made with the generator
    the first list left. *)
Theorem convert_all_app :
  forall (public_title private_title author : string)
         (logs1 logs2 : list Element) (g : Py.rng),
    convert_all public_title private_title author (logs1 ++ logs2) g =
    match convert_all public_title private_title author logs1 g with
    | ((notes1, Some e), g1) => ((notes1, Some e), g1)
    | ((notes1, None), g1) =>
        let '((notes2, e), g2) :=
          convert_all public_title private_title author logs2 g1 in
        (((notes1 ++ notes2)%list, e), g2)
    end.
Proof.
  intros pt prt author logs1 logs2.
  induction logs1 as [|fgu_entry rest IH]; intros g.
  - cbn [app convert_all].
    destruct (convert_all pt prt author logs2 g) as [[notes2 e] g2].
    reflexivity.
  - cbn [app convert_all].
    destruct (get_fvtt_entries fgu_entry pt prt author g) as [[notes [e|]] g1];
      [reflexivity|].
    rewrite IH.
    destruct (convert_all pt prt author rest g1) as [[notes1 [e1|]] g1'];
      [reflexivity|].
    destruct (convert_all pt prt author logs2 g1') as [[notes2 e2] g2].
    rewrite app_assoc. reflexivity.
Qed.

Lemma convert_all_length (pt prt author : string) (logs : list Element)
    (g : Py.rng) :
  (length (fst (fst (convert_all pt prt author logs g))) <= 2 * length logs)%nat.
Proof.
  revert g. induction logs as [|fgu_entry rest IH]; intros g; [cbn; lia|].
  cbn [convert_all].
  assert (H2 : (length (fst (fst (get_fvtt_entries fgu_entry pt prt author g)))
                <= 2)%nat).
  { unfold get_fvtt_entries.
    destruct (read_time fgu_entry) as [time|e]; [|cbn; lia].
    rewrite variants_loop_cons.
    destruct (find fgu_entry "logentry") as [pub|]; [|cbn; lia].
    destruct (negb (Py.truthy (Some (textify pub)))).
    - rewrite variants_loop_cons.
      destruct (find fgu_entry "gmlogentry") as [priv|]; [|cbn; lia].
      destruct (negb _); [cbn; lia|].
      destruct (get_id g) as [id g1]. cbn. lia.
    - destruct (get_id g) as [id g1]. rewrite variants_loop_cons.
      destruct (find fgu_entry "gmlogentry") as [priv|]; [|cbn; lia].
      destruct (negb _); [cbn; lia|].
      destruct (get_id g1) as [id2 g2]. cbn. lia. }
  destruct (get_fvtt_entries fgu_entry pt prt author g) as [[notes [e|]] g1];
    cbn [fst snd length] in *; [lia|].
  specialize (IH g1).
  destruct (convert_all pt prt author rest g1) as [[notes' e'] g2].
  cbn [fst snd] in *. rewrite length_app. lia.
Qed.

(** X9: a conversion yields at most two notes for each entry and uses the
    random generator exactly once for each note it yields: entries and
    variants without text use none. *)
Theorem convert_all_uses_one_draw_per_note :
  forall (public_title private_title author : string)
         (fgu_db_logs : list Element) (g : Py.rng),
    (length (fst (fst (convert_all public_title private_title author
                         fgu_db_logs g)))
     <= 2 * length fgu_db_logs)%nat /\
    Py.used (snd (convert_all public_title private_title author fgu_db_logs g))
    = (Py.used g
       + length (fst (fst (convert_all public_title private_title author
                             fgu_db_logs g))))%nat /\
    Py.entropy (snd (convert_all public_title private_title author fgu_db_logs g))
    = Py.entropy g.
Proof.
  intros pt prt author logs g.
  destruct (convert_all_draws pt prt author logs g) as (_ & He & Hu).
  split; [apply convert_all_length|]. split; assumption.
Qed.

(** X10: two notes of a run have the same identifier exactly when their two
    draws agree modulo 2^32; the conversion does nothing to keep the
    identifiers of a run apart. *)
Theorem convert_all_ids_collide_iff :
  forall (public_title private_title author : string)
         (fgu_db_logs : list Element) (g : Py.rng)
         (i j : nat) (ni nj : Note.t),
    fst (fst (convert_all public_title private_title author fgu_db_logs g))
      !! i = Some ni ->
    fst (fst (convert_all public_title private_title author fgu_db_logs g))
      !! j = Some nj ->
    (Note.id ni = Note.id nj <->
     (Py.entropy g (Py.used g + i)%nat mod 2 ^ 32 =
      Py.entropy g (Py.used g + j)%nat mod 2 ^ 32)%N).
Proof.
  intros pt prt author logs g i j ni nj Hi Hj.
  destruct (convert_all_draws pt prt author logs g) as (Hids & _ & _).
  assert (Hid : forall k n,
            fst (fst (convert_all pt prt author logs g)) !! k = Some n ->
            Note.id n = nth_id g k).
  { intros k n Hk.
    assert (H : map Note.id (fst (fst (convert_all pt prt author logs g))) !! k
                = Some (Note.id n))
      by (change map with (@fmap list _) ; rewrite list_lookup_fmap, Hk; reflexivity).
    rewrite Hids in H. change map with (@fmap list _) in H.
    rewrite list_lookup_fmap in H.
    apply lookup_lt_Some in Hk.
    rewrite lookup_seq_lt in H by exact Hk. cbn in H. congruence. }
  rewrite (Hid i ni Hi), (Hid j nj Hj). unfold nth_id. split.
  - intros E. apply (f_equal hex_value) in E.
    assert (Hv : forall x : N, hex_value (Py.format_08x (x mod 2 ^ 32)%N)
                               = (x mod 2 ^ 32)%N).
    { intros x. apply format_08x_ok, N.mod_upper_bound. lia. }
    rewrite !Hv in E. exact E.
  - intros ->. reflexivity.
Qed.

(** ** The backup and the files *)

(** X11: the backup goes to the first name [name.bak.0], [name.bak.1], ...
    that is not in use, whatever the number of earlier backups; that name
    differs from the name of the settings file. *)
Theorem backup_goes_to_first_free_name :
  forall (fs : gmap string string) (name : string),
    fs !! backup_name name (backup_index fs name) = None /\
    (forall j, (j < backup_index fs name)%nat ->
               is_Some (fs !! backup_name name j)) /\
    backup_name name (backup_index fs name) <> name.
Proof.
  intros fs name. destruct (backup_index_spec fs name) as [Hfree Hleast].
  split; [exact Hfree|]. split; [exact Hleast|apply backup_name_ne].
Qed.

(** The files after a run are those with the backup, with or without a new
    text in the settings file. *)
Lemma main_files (parse : string -> Py.result Element)
    (loads : string -> Py.result Json.value)
    (decode : string -> option string) (encode : string -> string)
    (args : Args) (fs : gmap string string) (g : Py.rng)
    (fgu_text fvtt_text : string) :
  fs !! arg_fgu args = Some fgu_text ->
  fs !! arg_fvtt args = Some fvtt_text ->
  fst (main parse loads decode encode args (fs, g))
    = with_backup fs (arg_fvtt args) fvtt_text \/
  exists new,
    fst (main parse loads decode encode args (fs, g))
    = <[arg_fvtt args := new]> (with_backup fs (arg_fvtt args) fvtt_text).
Proof.
  intros Hfgu Hfvtt. unfold main. rewrite Hfgu, Hfvtt.
  destruct (parse fgu_text) as [root|e]; [|left; reflexivity].
  destruct (find_calendar_log root) as [log|]; [|left; reflexivity].
  destruct (convert_all _ _ _ _ g) as [[notes [e|]] g']; [left; reflexivity|].
  destruct (notes !! 50%nat); [|left; reflexivity].
  destruct (decode fvtt_text) as [text|]; [|left; reflexivity].
  destruct (find_settings loads _ 0) as [[[ln payload]|]|e];
    [|left; reflexivity..].
  destruct (Json.setitem payload _ _) as [payload'|e]; [|left; reflexivity].
  right. eexists. reflexivity.
Qed.

(** X12: whatever the way a run ends, once both files could be opened the
    backup holds what the settings file held, under a name that was free,
    and no file but the backup and the settings file has changed: the
    source is as it was. *)
Theorem main_touches_only_backup_and_settings :
  forall (parse : string -> Py.result Element)
         (loads : string -> Py.result Json.value)
         (decode : string -> option string) (encode : string -> string)
         (args : Args) (fs : gmap string string) (g : Py.rng)
         (fgu_text fvtt_text : string),
    fs !! arg_fgu args = Some fgu_text ->
    fs !! arg_fvtt args = Some fvtt_text ->
    fs !! backup_name (arg_fvtt args) (backup_index fs (arg_fvtt args)) = None /\
    fst (main parse loads decode encode args (fs, g))
      !! backup_name (arg_fvtt args) (backup_index fs (arg_fvtt args))
    = Some fvtt_text /\
    (forall other,
       other <> backup_name (arg_fvtt args) (backup_index fs (arg_fvtt args)) ->
       other <> arg_fvtt args ->
       fst (main parse loads decode encode args (fs, g)) !! other = fs !! other) /\
    (arg_fgu args <> arg_fvtt args ->
     fst (main parse loads decode encode args (fs, g)) !! arg_fgu args = Some fgu_text).
Proof.
  intros parse loads decode encode args fs g fgu_text fvtt_text Hfgu Hfvtt.
  destruct (with_backup_lookup fs _ _ Hfvtt) as (Hfree & Hbak & _ & Hother).
  assert (Hframe : forall other,
    other <> backup_name (arg_fvtt args) (backup_index fs (arg_fvtt args)) ->
    other <> arg_fvtt args ->
    fst (main parse loads decode encode args (fs, g)) !! other = fs !! other).
  { intros other Hne1 Hne2.
    destruct (main_files parse loads decode encode args fs g _ _ Hfgu Hfvtt)
      as [->|[new ->]].
    - apply Hother, Hne1.
    - rewrite lookup_insert_ne by congruence. apply Hother, Hne1. }
  split; [exact Hfree|]. split; [|split; [exact Hframe|]].
  - destruct (main_files parse loads decode encode args fs g _ _ Hfgu Hfvtt)
      as [->|[new ->]].
    + exact Hbak.
    + rewrite lookup_insert_ne; [exact Hbak|]. apply not_eq_sym, backup_name_ne.
  - intros Hne. rewrite Hframe; [exact Hfgu| |exact Hne].
    intros E. rewrite E, Hfree in Hfgu. discriminate Hfgu.
Qed.

Lemma find_calendar_log_none (fgu_db_root : Element) :
  (forall calendar, In calendar (children fgu_db_root) ->
     tag calendar = "calendar" ->
     forall log, In log (children calendar) -> tag log <> "log") ->
  find_calendar_log fgu_db_root = None.
Proof.
  unfold find_calendar_log. intros H.
  induction (children fgu_db_root) as [|c rest IH]; [reflexivity|].
  rewrite filter_cons. destruct (decide _) as [Hc|Hc].
  - cbn [map concat].
    assert (Hnone : filter (fun e => String.eqb (tag e) "log") (children c) = []).
    { apply Is_true_true, String.eqb_eq in Hc.
      specialize (H c (or_introl eq_refl) Hc).
      induction (children c) as [|l ls IHl]; [reflexivity|].
      rewrite filter_cons. destruct (decide _) as [Hl|Hl].
      - apply Is_true_true, String.eqb_eq in Hl.
        destruct (H l (or_introl eq_refl) Hl).
      - apply IHl. intros l' Hin. apply H. right. exact Hin. }
    rewrite Hnone. cbn [app]. apply IH.
    intros c' Hin. apply H. right. exact Hin.
  - apply IH. intros c' Hin. apply H. right. exact Hin.
Qed.

(** X13: the backup is made before the source is read.  A source that
    does not parse ends the run with the exception of the parser, and a
    source in which no calendar holds a log ends it with [TypeError]; in
    both cases the backup is the only change to the files. *)
Theorem main_source_without_log :
  forall (parse : string -> Py.result Element)
         (loads : string -> Py.result Json.value)
         (decode : string -> option string) (encode : string -> string)
         (args : Args) (fs : gmap string string) (g : Py.rng)
         (fgu_text fvtt_text : string),
    fs !! arg_fgu args = Some fgu_text ->
    fs !! arg_fvtt args = Some fvtt_text ->
    (forall e, parse fgu_text = Py.Raise e ->
       main parse loads decode encode args (fs, g) =
         (<[backup_name (arg_fvtt args) (backup_index fs (arg_fvtt args))
              := fvtt_text]> fs, e)) /\
    (forall fgu_db_root,
       parse fgu_text = Py.Return fgu_db_root ->
       (forall calendar, In calendar (children fgu_db_root) ->
          tag calendar = "calendar" ->
          forall log, In log (children calendar) -> tag log <> "log") ->
       main parse loads decode encode args (fs, g) =
         (<[backup_name (arg_fvtt args) (backup_index fs (arg_fvtt args))
              := fvtt_text]> fs, Py.TypeError)).
Proof.
  intros parse loads decode encode args fs g fgu_text fvtt_text Hfgu Hfvtt. split.
  - intros e He. unfold main. rewrite Hfgu, Hfvtt, He. reflexivity.
  - intros root Hroot Hnone. unfold main.
    rewrite Hfgu, Hfvtt, Hroot, (find_calendar_log_none root Hnone).
    reflexivity.
Qed.

(** ** The lines of the settings file *)

Lemma str_app_empty_r (s : string) : s ++ "" = s.
Proof.
  induction s as [|c s IH]; [reflexivity|]. rewrite str_app_cons, IH. reflexivity.
Qed.

Lemma join_split_lines (s : string) : Py.join (File.split_lines s) = s.
Proof.
  induction s as [|c s IH]; [reflexivity|].
  cbn [File.split_lines]. destruct (Ascii.eqb c "010").
  - cbn [Py.join fold_right]. fold (Py.join (File.split_lines s)).
    rewrite IH. reflexivity.
  - destruct (File.split_lines s) as [|line rest].
    + cbn in IH. subst s. reflexivity.
    + cbn [Py.join fold_right] in *. rewrite str_app_cons, IH. reflexivity.
Qed.

Lemma split_lines_nonempty (s : string) :
  Forall (fun line => line <> "") (File.split_lines s).
Proof.
  induction s as [|c s IH]; [constructor|].
  cbn [File.split_lines]. destruct (Ascii.eqb c "010").
  - constructor; [discriminate|exact IH].
  - destruct (File.split_lines s) as [|line rest].
    + constructor; [discriminate|constructor].
    + inversion IH; subst. constructor; [discriminate|assumption].
Qed.

Lemma universal_newlines_id (s : string) :
  all_chars (fun c => negb (is_cr c)) s = true -> File.universal_newlines s = s.
Proof.
  induction s as [|c s IH]; [reflexivity|].
  cbn [all_chars File.universal_newlines]. unfold is_cr at 1.
  intros H. apply andb_true_iff in H as [Hc H].
  apply negb_true_iff in Hc. rewrite Hc, (IH H). reflexivity.
Qed.

Lemma drop_length (s : string) : File.drop (String.length s) s = "".
Proof. induction s as [|c s IH]; [reflexivity|exact IH]. Qed.

(** X14: the lines [readlines] gives, put together, are the text of the
    file with each carriage return, and the line feed after it if any, read
    as one line feed; no line is empty.  For a text without carriage
    returns they are the text: writing them back over a file in which each
    byte is a character leaves the file as it is, and so does, whatever the
    codec, writing them over a file that holds their bytes. *)
Theorem readlines_join :
  forall data : string,
    Py.join (File.readlines data) = File.universal_newlines data /\
    Forall (fun line => line <> "") (File.readlines data) /\
    (all_chars (fun c => negb (is_cr c)) data = true ->
     Py.join (File.readlines data) = data /\
     File.overwrite Codec.encode_latin_1 data (File.readlines data) = data /\
     forall encode : string -> string,
       File.overwrite encode (Py.join (map encode (File.readlines data)))
         (File.readlines data)
       = Py.join (map encode (File.readlines data))).
Proof.
  intros data. unfold File.readlines.
  split; [apply join_split_lines|]. split; [apply split_lines_nonempty|].
  intros H. rewrite (universal_newlines_id data H).
  split; [apply join_split_lines|]. split.
  - unfold File.overwrite, Codec.encode_latin_1.
    rewrite List.map_id, join_split_lines, drop_length.
    apply str_app_empty_r.
  - intros encode. unfold File.overwrite.
    rewrite drop_length. apply str_app_empty_r.
Qed.

Section SettingsLines.

Variable loads : string -> Py.result Json.value.

Lemma find_settings_app (before rest : list string) (line_number : nat) :
  Forall (passed_over loads) before ->
  find_settings loads (before ++ rest) line_number =
  find_settings loads rest (line_number + length before).
Proof.
  intros H. revert line_number.
  induction H as [|line before (payload & key & Hl & Hk & Hne) _ IH];
    intros k.
  - cbn. rewrite Nat.add_0_r. reflexivity.
  - cbn [app find_settings]. rewrite Hl. cbn [Py.bind]. rewrite Hk.
    cbn [Py.bind]. rewrite Hne, IH. f_equal. cbn [length]. lia.
Qed.

End SettingsLines.

(** X15: the loop over the settings stops at the first line whose key is
    [foundryvtt-simple-calendar.notes]: it gives the number and the payload
    of that line, and the lines after it are not decoded. *)
Theorem find_settings_first_match :
  forall (loads : string -> Py.result Json.value)
         (before after : list string) (line : string)
         (payload key : Json.value),
    Forall (passed_over loads) before ->
    loads (Py.strip line) = Py.Return payload ->
    Json.getitem payload "key" = Py.Return key ->
    Json.eq_str key CAL_SETTINGS = true ->
    find_settings loads (before ++ line :: after) 0 =
      Py.Return (Some (length before, payload)).
Proof.
  intros loads before after line payload key Hbefore Hl Hk He.
  rewrite (find_settings_app loads before _ 0 Hbefore).
  cbn [find_settings]. rewrite Hl. cbn [Py.bind]. rewrite Hk. cbn [Py.bind].
  rewrite He. reflexivity.
Qed.

Lemma find_key_none (items : list (string * Json.value)) (key : string) :
  ~ In key (keys items) ->
  List.find (fun kv => String.eqb (fst kv) key) items = None.
Proof.
  unfold keys. induction items as [|kv items IH]; [reflexivity|].
  intros Hnone. cbn [List.find].
  destruct (String.eqb_spec (fst kv) key) as [E|E].
  - exfalso. apply Hnone. left. exact E.
  - apply IH. intros Hin. apply Hnone. right. exact Hin.
Qed.

(** X16: a line that comes before the line of the calendar notes and does
    not decode, or decodes to something that is not an object, or to an
    object without a key, ends the search with the exception of the
    decoder, with [TypeError], or with [KeyError]: the line of the notes is
    not reached. *)
Theorem find_settings_bad_line :
  forall (loads : string -> Py.result Json.value)
         (before after : list string) (line : string),
    Forall (passed_over loads) before ->
    (forall e, loads (Py.strip line) = Py.Raise e ->
       find_settings loads (before ++ line :: after) 0 = Py.Raise e) /\
    (forall items,
       loads (Py.strip line) = Py.Return (Json.Dict items) ->
       ~ In "key" (keys items) ->
       find_settings loads (before ++ line :: after) 0 = Py.Raise Py.KeyError) /\
    (forall payload,
       loads (Py.strip line) = Py.Return payload ->
       (forall items, payload <> Json.Dict items) ->
       find_settings loads (before ++ line :: after) 0 = Py.Raise Py.TypeError).
Proof.
  intros loads before after line Hbefore.
  split; [|split].
  - intros e He. rewrite (find_settings_app loads before _ 0 Hbefore).
    cbn [find_settings]. rewrite He. reflexivity.
  - intros items Hl Hnone. rewrite (find_settings_app loads before _ 0 Hbefore).
    cbn [find_settings]. rewrite Hl. cbn [Py.bind Json.getitem].
    rewrite (find_key_none items "key" Hnone). reflexivity.
  - intros payload Hl Hnot. rewrite (find_settings_app loads before _ 0 Hbefore).
    cbn [find_settings]. rewrite Hl. cbn [Py.bind].
    destruct payload; try reflexivity. destruct (Hnot items eq_refl).
Qed.

(** ** The new line *)

Lemma getitem_set_item (items : list (string * Json.value))
    (key k : string) (v : Json.value) :
  Json.getitem (Json.Dict (Json.set_item key v items)) k =
  if String.eqb k key then Py.Return v else Json.getitem (Json.Dict items) k.
Proof.
  unfold Json.getitem. induction items as [|kv items IH].
  - cbn. rewrite (String.eqb_sym key k). destruct (String.eqb k key); reflexivity.
  - cbn [Json.set_item]. destruct (String.eqb_spec (fst kv) key) as [E|E].
    + cbn [List.find fst snd]. rewrite E, (String.eqb_sym key k).
      destruct (String.eqb k key); reflexivity.
    + cbn [List.find]. destruct (String.eqb_spec (fst kv) k) as [E'|E'].
      * destruct (String.eqb_spec k key) as [E''|_]; [congruence|reflexivity].
      * exact IH.
Qed.

Lemma keys_set_item (items : list (string * Json.value)) (key : string)
    (v : Json.value) :
  keys (Json.set_item key v items) =
  if existsb (String.eqb key) (keys items) then keys items
  else (keys items ++ [key])%list.
Proof.
  unfold keys. induction items as [|kv items IH]; [reflexivity|].
  cbn [Json.set_item map existsb]. rewrite (String.eqb_sym key (fst kv)).
  destruct (String.eqb_spec (fst kv) key) as [E|E].
  - cbn [map fst orb]. rewrite E. reflexivity.
  - cbn [map orb]. rewrite IH.
    destruct (existsb (String.eqb key) (map fst items)); reflexivity.
Qed.

(** X17: setting the value of the payload changes that item alone: the new
    value is read back, every other item, the key of the line among them,
    reads as before, and the items keep their order, a value item that was
    absent being added last. *)
Theorem setitem_changes_one_item :
  forall (items : list (string * Json.value)) (key k : string) (v : Json.value),
    Json.setitem (Json.Dict items) key v
      = Py.Return (Json.Dict (Json.set_item key v items)) /\
    Json.getitem (Json.Dict (Json.set_item key v items)) key = Py.Return v /\
    (k <> key ->
     Json.getitem (Json.Dict (Json.set_item key v items)) k
     = Json.getitem (Json.Dict items) k) /\
    keys (Json.set_item key v items) =
      (if existsb (String.eqb key) (keys items) then keys items
       else (keys items ++ [key])%list).
Proof.
  intros items key k v. split; [reflexivity|]. split; [|split].
  - rewrite getitem_set_item, String.eqb_refl. reflexivity.
  - intros Hne. rewrite getitem_set_item.
    apply String.eqb_neq in Hne. rewrite Hne. reflexivity.
  - apply keys_set_item.
Qed.

Lemma drop_all (n : nat) (s : string) :
  (String.length s <= n)%nat -> File.drop n s = "".
Proof.
  revert s. induction n as [|n IH]; intros [|c s] H; simpl in *;
    try reflexivity; try lia.
  apply IH. lia.
Qed.

(** X18: a run that converts more than 50 notes and finds the line of the
    calendar notes in the text of the settings file, and in which the
    bytes it writes are not fewer than the bytes the settings file held,
    leaves in the settings file exactly the bytes of its lines with that
    one line replaced by the payload whose value is the notes, and exits
    with status 0.  Both lengths are counted in bytes: the one of the file
    as it is stored, the one of the new lines once encoded. *)
Theorem main_replaces_the_notes_line :
  forall (parse : string -> Py.result Element)
         (loads : string -> Py.result Json.value)
         (decode : string -> option string) (encode : string -> string)
         (args : Args) (fs : gmap string string) (g g' : Py.rng)
         (fgu_data fvtt_data fvtt_text : string) (fgu_db_root log : Element)
         (fvtt_entries : list Note.t) (line_number : nat)
         (items : list (string * Json.value)),
    fs !! arg_fgu args = Some fgu_data ->
    fs !! arg_fvtt args = Some fvtt_data ->
    parse fgu_data = Py.Return fgu_db_root ->
    find_calendar_log fgu_db_root = Some log ->
    convert_all (arg_public_title args) (arg_private_title args)
      (arg_author args) (log_entries log) g = ((fvtt_entries, None), g') ->
    (50 < length fvtt_entries)%nat ->
    decode fvtt_data = Some fvtt_text ->
    find_settings loads (File.readlines fvtt_text) 0
      = Py.Return (Some (line_number, Json.Dict items)) ->
    (String.length fvtt_data <=
     String.length
       (Py.join
          (map encode
             (<[line_number :=
                  Json.dumps
                    (Json.Dict
                       (Json.set_item "value"
                          (Json.Str (Json.dumps
                                       (Json.List (map note_json fvtt_entries))))
                          items)) ++ String "010" ""]>
                (File.readlines fvtt_text)))))%nat ->
    main parse loads decode encode args (fs, g) =
      (<[arg_fvtt args :=
           Py.join
             (map encode
                (<[line_number :=
                     Json.dumps
                       (Json.Dict
                          (Json.set_item "value"
                             (Json.Str (Json.dumps
                                          (Json.List (map note_json fvtt_entries))))
                             items)) ++ String "010" ""]>
                   (File.readlines fvtt_text)))]>
         (<[backup_name (arg_fvtt args) (backup_index fs (arg_fvtt args))
              := fvtt_data]> fs),
       Py.SystemExit Py.ExitNone) /\
    Py.exit_status (Py.SystemExit Py.ExitNone) = 0%Z.
Proof.
  intros parse loads decode encode args fs g g' fgu_data fvtt_data fvtt_text
    root log notes ln items
    Hfgu Hfvtt Hparse Hlog Hconv Hlen Hdecode Hfind Hroom.
  rewrite (main_converted parse loads decode encode _ _ _ _ _ _ _ _ _
             Hfgu Hfvtt Hparse Hlog Hconv).
  cbn zeta. destruct (lookup_lt_is_Some_2 notes 50 Hlen) as [n50 ->].
  rewrite Hdecode, Hfind. cbn [Json.setitem].
  split; [|reflexivity]. unfold File.overwrite.
  rewrite (drop_all _ _ Hroom), str_app_empty_r. reflexivity.
Qed.




(** ** The notes as JSON *)

Lemma pretty_N_char_printable (d : N) : is_printable (pretty_N_char d) = true.
Proof. unfold pretty_N_char. repeat case_match; reflexivity. Qed.

Lemma pretty_N_go_printable (x : N) (s : string) :
  all_chars is_printable s = true ->
  all_chars is_printable (pretty_N_go x s) = true.
Proof.
  revert s. induction (N.lt_wf_0 x) as [x _ IH]; intros s Hs.
  destruct (N.eq_dec x 0%N) as [->|Hx]; [rewrite pretty_N_go_0; exact Hs|].
  rewrite pretty_N_go_step by lia. apply IH.
  - apply N.div_lt; lia.
  - cbn [all_chars]. rewrite pretty_N_char_printable, Hs. reflexivity.
Qed.

Lemma pretty_Z_printable (z : Z) : all_chars is_printable (pretty z) = true.
Proof.
  assert (HN : forall n : N, all_chars is_printable (pretty n) = true).
  { intros n. unfold pretty, pretty_N. case_decide; [reflexivity|].
    apply pretty_N_go_printable. reflexivity. }
  destruct z as [|p|p]; [reflexivity|apply (HN (N.pos p))|].
  unfold pretty, pretty_Z. rewrite all_chars_app.
  apply andb_true_iff. split; [reflexivity|apply (HN (N.pos p))].
Qed.

Lemma escape_char_printable (c : ascii) :
  all_chars is_printable (Json.escape_char c) = true.
Proof. destruct c as [[] [] [] [] [] [] [] []]; vm_compute; reflexivity. Qed.

Lemma encode_string_printable (s : string) :
  all_chars is_printable (Json.encode_string s) = true.
Proof.
  unfold Json.encode_string. rewrite !all_chars_app.
  assert (H : all_chars is_printable (Json.escape_chars s) = true).
  { induction s as [|c s IH]; [reflexivity|].
    cbn [Json.escape_chars]. rewrite all_chars_app, escape_char_printable, IH.
    reflexivity. }
  rewrite H. reflexivity.
Qed.

Lemma join_with_printable (sep : string) (parts : list string) :
  all_chars is_printable sep = true ->
  Forall (fun s => all_chars is_printable s = true) parts ->
  all_chars is_printable (Json.join_with sep parts) = true.
Proof.
  intros Hsep. induction 1 as [|s parts Hs Hparts IH]; [reflexivity|].
  cbn [Json.join_with]. destruct parts as [|s' parts]; [exact Hs|].
  rewrite !all_chars_app, Hs, Hsep, IH. reflexivity.
Qed.

Lemma dumps_list_printable (items : list Json.value) :
  Forall (fun v => all_chars is_printable (Json.dumps v) = true) items ->
  all_chars is_printable (Json.dumps (Json.List items)) = true.
Proof.
  intros H. cbn [Json.dumps]. rewrite !all_chars_app.
  rewrite join_with_printable; [reflexivity|reflexivity|].
  apply Forall_forall. intros s Hs. apply list_elem_of_In, in_map_iff in Hs.
  destruct Hs as (v & <- & Hv). rewrite Forall_forall in H.
  apply H, list_elem_of_In, Hv.
Qed.

Lemma dumps_dict_printable (items : list (string * Json.value)) :
  Forall (fun kv => all_chars is_printable (Json.dumps (snd kv)) = true) items ->
  all_chars is_printable (Json.dumps (Json.Dict items)) = true.
Proof.
  intros H. cbn [Json.dumps]. rewrite !all_chars_app.
  rewrite join_with_printable; [reflexivity|reflexivity|].
  apply Forall_forall. intros s Hs. apply list_elem_of_In, in_map_iff in Hs.
  destruct Hs as (kv & <- & Hkv). rewrite Forall_forall in H.
  rewrite !all_chars_app, encode_string_printable.
  rewrite (H kv); [reflexivity|]. apply list_elem_of_In, Hkv.
Qed.

Lemma dumps_strings_printable (l : list string) :
  all_chars is_printable (Json.dumps (Json.List (map Json.Str l))) = true.
Proof.
  apply dumps_list_printable, Forall_forall. intros v Hv.
  apply list_elem_of_In, in_map_iff in Hv. destruct Hv as (s & <- & _).
  apply encode_string_printable.
Qed.

Lemma dumps_bool_printable (b : bool) :
  all_chars is_printable (Json.dumps (Json.Bool b)) = true.
Proof. destruct b; reflexivity. Qed.

Lemma dumps_note_printable (n : Note.t) :
  all_chars is_printable (Json.dumps (note_json n)) = true.
Proof.
  unfold note_json. apply dumps_dict_printable.
  repeat constructor; cbn [snd];
    try apply encode_string_printable;
    try apply pretty_Z_printable;
    try apply dumps_bool_printable;
    try apply dumps_strings_printable.
  unfold endDate_json. apply dumps_dict_printable.
  repeat constructor; cbn [snd]; apply pretty_Z_printable.
Qed.

(** X20: the JSON text of the notes, and the JSON string that holds it as
    the value of the settings line, are made of printable US-ASCII
    characters only, whatever characters the titles, the author and the
    texts of the notes hold: no line feed enters the line of the notes. *)
Theorem dumps_notes_printable :
  forall fvtt_entries : list Note.t,
    all_chars is_printable
      (Json.dumps (Json.List (map note_json fvtt_entries))) = true /\
    all_chars is_printable
      (Json.dumps
         (Json.Str (Json.dumps (Json.List (map note_json fvtt_entries)))))
    = true.
Proof.
  intros notes. split; [|apply encode_string_printable].
  apply dumps_list_printable, Forall_forall. intros v Hv.
  apply list_elem_of_In, in_map_iff in Hv. destruct Hv as (n & <- & _).
  apply dumps_note_printable.
Qed.

(** ** Instances of the further properties *)

Lemma files_old_backup (root : Element) (payloads : list Json.value) :
  Sample.files root payloads !! "settings.db.bak.0" = Some "{}".
Proof.
  unfold Sample.files. rewrite !lookup_insert_ne by discriminate.
  apply lookup_insert_eq.
Qed.

Lemma get_fvtt_entries_public_only_witness :
  textify (Sample.block "logentry"
             [Sample.p (Some "Spoke with Sharvaros.") None]) <> "" /\
  textify (Sample.block "gmlogentry" [Sample.p None None]) = "" /\
  exists n : Note.t,
    get_fvtt_entries Sample.entry_public "Journal" "Notes" "zph8yxjDa80f9VnL"
      Sample.rng0 = (([n], None), snd (get_id Sample.rng0)) /\
    Note.id n = "00003039" /\
    Note.content n = "<p>Spoke with Sharvaros.</p>" /\
    Note.playerVisible n = true /\ Note.title n = "Journal" /\
    Note.priority n = 0%Z.
Proof.
  assert (T : textify (Sample.block "logentry"
                [Sample.p (Some "Spoke with Sharvaros.") None]) <> "")
    by (vm_compute; discriminate).
  split; [exact T|]. split; [reflexivity|].
  exact (get_fvtt_entries_public_only Sample.entry_public
           "Journal" "Notes" "zph8yxjDa80f9VnL" Sample.rng0 4721 1 10 _ _
           eq_refl eq_refl eq_refl eq_refl eq_refl T eq_refl).
Defined.

Lemma get_fvtt_entries_private_only_witness :
  textify (Sample.block "logentry" [Sample.p None None]) = "" /\
  textify (Sample.block "gmlogentry"
             [Sample.p (Some "The seal is a forgery.") None]) <> "" /\
  exists n : Note.t,
    get_fvtt_entries Cases.entry_private "Journal" "Notes" "zph8yxjDa80f9VnL"
      Sample.rng0 = (([n], None), snd (get_id Sample.rng0)) /\
    Note.id n = "00003039" /\
    Note.content n = "<p>The seal is a forgery.</p>" /\
    Note.playerVisible n = false /\ Note.title n = "Notes" /\
    Note.priority n = 1%Z.
Proof.
  assert (T : textify (Sample.block "gmlogentry"
                [Sample.p (Some "The seal is a forgery.") None]) <> "")
    by (vm_compute; discriminate).
  split; [reflexivity|]. split; [exact T|].
  exact (get_fvtt_entries_private_only Cases.entry_private
           "Journal" "Notes" "zph8yxjDa80f9VnL" Sample.rng0 4721 1 13 _ _
           eq_refl eq_refl eq_refl eq_refl eq_refl eq_refl T).
Defined.

Lemma get_fvtt_entries_missing_block_witness :
  find Cases.entry_no_gm "gmlogentry" = None /\
  find Cases.entry_no_public "logentry" = None /\
  (exists n : Note.t,
     get_fvtt_entries Cases.entry_no_gm "Journal" "Notes" "zph8yxjDa80f9VnL"
       Sample.rng0 = (([n], Some Py.TypeError), snd (get_id Sample.rng0)) /\
     Note.content n = "<p>Sailed at dawn.</p>") /\
  get_fvtt_entries Cases.entry_no_public "Journal" "Notes" "zph8yxjDa80f9VnL"
    Sample.rng0 = (([], Some Py.TypeError), Sample.rng0).
Proof.
  split; [reflexivity|]. split; [reflexivity|]. split.
  - eexists. split.
    + exact (proj2 (get_fvtt_entries_missing_block Cases.entry_no_gm
                      "Journal" "Notes" "zph8yxjDa80f9VnL" Sample.rng0 4721 1 14
                      eq_refl eq_refl eq_refl) _ eq_refl eq_refl).
    + reflexivity.
  - exact (proj1 (get_fvtt_entries_missing_block Cases.entry_no_public
                    "Journal" "Notes" "zph8yxjDa80f9VnL" Sample.rng0 4721 1 15
                    eq_refl eq_refl eq_refl) eq_refl).
Defined.

Lemma convert_all_ids_collide_iff_witness :
  exists ni nj : Note.t,
    fst (fst (convert_all "Journal" "Notes" "zph8yxjDa80f9VnL"
                [Sample.entry_both] Cases.rng_constant)) !! 0%nat = Some ni /\
    fst (fst (convert_all "Journal" "Notes" "zph8yxjDa80f9VnL"
                [Sample.entry_both] Cases.rng_constant)) !! 1%nat = Some nj /\
    Note.playerVisible ni = true /\ Note.playerVisible nj = false /\
    Note.id ni = Note.id nj.
Proof.
  eexists _, _.
  split; [vm_compute; reflexivity|]. split; [vm_compute; reflexivity|].
  split; [reflexivity|]. split; [reflexivity|].
  refine (proj2 (convert_all_ids_collide_iff "Journal" "Notes"
                   "zph8yxjDa80f9VnL" [Sample.entry_both] Cases.rng_constant
                   0 1 _ _ _ _) eq_refl);
    vm_compute; reflexivity.
Defined.

Lemma main_touches_only_backup_and_settings_witness :
  Sample.files Sample.db_large Sample.settings_long !! "settings.db.bak.1" = None /\
  fst (main (Sample.parse_of Sample.db_large)
         (Sample.loads_of Sample.settings_long)
         Codec.decode_latin_1 Codec.encode_latin_1 Sample.args
         (Sample.files Sample.db_large Sample.settings_long, Sample.rng0))
    !! "settings.db.bak.1" = Some (Sample.settings_text Sample.settings_long) /\
  fst (main (Sample.parse_of Sample.db_large)
         (Sample.loads_of Sample.settings_long)
         Codec.decode_latin_1 Codec.encode_latin_1 Sample.args
         (Sample.files Sample.db_large Sample.settings_long, Sample.rng0))
    !! "db.xml" = Some (tostring Sample.db_large) /\
  fst (main (Sample.parse_of Sample.db_large)
         (Sample.loads_of Sample.settings_long)
         Codec.decode_latin_1 Codec.encode_latin_1 Sample.args
         (Sample.files Sample.db_large Sample.settings_long, Sample.rng0))
    !! "settings.db.bak.0" = Some "{}".
Proof.
  destruct (main_touches_only_backup_and_settings
              (Sample.parse_of Sample.db_large)
              (Sample.loads_of Sample.settings_long)
              Codec.decode_latin_1 Codec.encode_latin_1 Sample.args
              (Sample.files Sample.db_large Sample.settings_long) Sample.rng0
              _ _ (files_fgu _ _) (files_fvtt _ _))
    as (Hfree & Hbak & Hother & Hfgu).
  rewrite files_backup in Hfree, Hbak, Hother.
  split; [exact Hfree|]. split; [exact Hbak|].
  split; [apply Hfgu; discriminate|].
  rewrite Hother by discriminate. apply files_old_backup.
Defined.

Lemma main_source_without_log_witness :
  find_calendar_log Cases.db_no_calendar = None /\
  main (Sample.parse_of Cases.db_no_calendar)
    (Sample.loads_of Sample.settings_other)
    Codec.decode_latin_1 Codec.encode_latin_1 Sample.args
    (Sample.files Cases.db_no_calendar Sample.settings_other, Sample.rng0)
  = (<["settings.db.bak.1" := Sample.settings_text Sample.settings_other]>
       (Sample.files Cases.db_no_calendar Sample.settings_other),
     Py.TypeError).
Proof.
  split; [reflexivity|].
  destruct (main_source_without_log (Sample.parse_of Cases.db_no_calendar)
              (Sample.loads_of Sample.settings_other)
              Codec.decode_latin_1 Codec.encode_latin_1 Sample.args
              (Sample.files Cases.db_no_calendar Sample.settings_other)
              Sample.rng0 _ _ (files_fgu _ _) (files_fvtt _ _)) as [_ Hnone].
  rewrite files_backup in Hnone.
  apply (Hnone Cases.db_no_calendar (parse_of_tostring _)).
  intros calendar Hin Htag. vm_compute in Hin.
  destruct Hin as [<-|[]]. discriminate Htag.
Defined.

Lemma find_settings_first_match_witness :
  File.readlines (Sample.settings_text Cases.settings_short)
  = ([Cases.line (Sample.setting "core.time" (Json.Int 0))]
     ++ Cases.line (Sample.setting CAL_SETTINGS (Json.Str "[]"))
     :: [Cases.line (Sample.setting "core.language" (Json.Str "en"))])%list /\
  find_settings (Sample.loads_of Cases.settings_short)
    (File.readlines (Sample.settings_text Cases.settings_short)) 0
  = Py.Return (Some (1%nat, Sample.setting CAL_SETTINGS (Json.Str "[]"))).
Proof.
  assert (Hlines :
    File.readlines (Sample.settings_text Cases.settings_short)
    = ([Cases.line (Sample.setting "core.time" (Json.Int 0))]
       ++ Cases.line (Sample.setting CAL_SETTINGS (Json.Str "[]"))
       :: [Cases.line (Sample.setting "core.language" (Json.Str "en"))])%list)
    by (vm_compute; reflexivity).
  assert (Hbefore :
    Forall (passed_over (Sample.loads_of Cases.settings_short))
      [Cases.line (Sample.setting "core.time" (Json.Int 0))]).
  { constructor; [|constructor].
    exists (Sample.setting "core.time" (Json.Int 0)), (Json.Str "core.time").
    repeat split; reflexivity. }
  split; [exact Hlines|]. rewrite Hlines.
  exact (find_settings_first_match (Sample.loads_of Cases.settings_short)
           [Cases.line (Sample.setting "core.time" (Json.Int 0))]
           [Cases.line (Sample.setting "core.language" (Json.Str "en"))]
           (Cases.line (Sample.setting CAL_SETTINGS (Json.Str "[]")))
           (Sample.setting CAL_SETTINGS (Json.Str "[]"))
           (Json.Str CAL_SETTINGS) Hbefore eq_refl eq_refl eq_refl).
Defined.

Lemma find_settings_bad_line_witness :
  Sample.loads_of Cases.settings_list_first "[]" = Py.Return (Json.List []) /\
  find_settings (Sample.loads_of Cases.settings_list_first)
    ([] ++ Cases.line (Json.List [])
        :: [Cases.line (Sample.setting CAL_SETTINGS (Json.Str "[]"))])%list 0
  = Py.Raise Py.TypeError.
Proof.
  split; [reflexivity|].
  destruct (find_settings_bad_line (Sample.loads_of Cases.settings_list_first)
              [] [Cases.line (Sample.setting CAL_SETTINGS (Json.Str "[]"))]
              (Cases.line (Json.List [])) (List.Forall_nil _)) as (_ & _ & Htype).
  apply (Htype (Json.List [])); [reflexivity|]. intros items. discriminate.
Defined.

Lemma main_replaces_the_notes_line_witness :
  find_settings (Sample.loads_of Cases.settings_short)
    (File.readlines (Sample.settings_text Cases.settings_short)) 0
  = Py.Return (Some (1%nat,
                     Json.Dict [("key", Json.Str CAL_SETTINGS);
                                ("value", Json.Str "[]")])) /\
  main (Sample.parse_of Sample.db_large) (Sample.loads_of Cases.settings_short)
    Codec.decode_latin_1 Codec.encode_latin_1
    Sample.args (Sample.files Sample.db_large Cases.settings_short, Sample.rng0)
  = (<["settings.db" := Cases.new_text_short]>
       (<["settings.db.bak.1" := Sample.settings_text Cases.settings_short]>
          (Sample.files Sample.db_large Cases.settings_short)),
     Py.SystemExit Py.ExitNone).
Proof.
  assert (Hfind :
    find_settings (Sample.loads_of Cases.settings_short)
      (File.readlines (Sample.settings_text Cases.settings_short)) 0
    = Py.Return (Some (1%nat,
                       Json.Dict [("key", Json.Str CAL_SETTINGS);
                                  ("value", Json.Str "[]")])))
    by (vm_compute; reflexivity).
  assert (Hlen : (50 < length Sample.notes_large)%nat)
    by (vm_compute; repeat constructor).
  split; [exact Hfind|].
  destruct (main_replaces_the_notes_line (Sample.parse_of Sample.db_large)
              (Sample.loads_of Cases.settings_short)
              Codec.decode_latin_1 Codec.encode_latin_1 Sample.args
              (Sample.files Sample.db_large Cases.settings_short)
              Sample.rng0 Sample.rng_large _ _ _ Sample.db_large
              (Sample.log (replicate 51 Sample.entry_public)) Sample.notes_large
              1 _ (files_fgu _ _) (files_fvtt _ _) (parse_of_tostring _) eq_refl
              convert_large Hlen eq_refl Hfind) as [Hrun _].
  { apply Nat.leb_le. vm_compute. reflexivity. }
  rewrite files_backup in Hrun. rewrite Hrun.
  assert (Hnew :
    Py.join
      (map Codec.encode_latin_1
         (<[1%nat :=
              Json.dumps
                (Json.Dict
                   (Json.set_item "value"
                      (Json.Str (Json.dumps
                                   (Json.List (map note_json Sample.notes_large))))
                      [("key", Json.Str CAL_SETTINGS); ("value", Json.Str "[]")]))
                ++ String "010" ""]>
            (File.readlines (Sample.settings_text Cases.settings_short))))
    = Cases.new_text_short)
    by (apply (by_decision _); vm_compute; reflexivity).
  rewrite Hnew. reflexivity.
Defined.

